(** * Business Planning Assistant (main.py): response generation with
    fallback, feedback gate and interaction logging.

    The Streamlit script is embedded as state-passing code over the four keys
    of [st.session_state] it uses.  Outbound calls (Gemini, OpenAI, Firebase)
    are answered by a [World] of oracles; what the script does to the outside
    (provider calls, logger calls, database writes, rendered widgets) is
    collected in a chronological list of [Event]s. *)

From Stdlib Require Import String Ascii List Bool Arith Lia.
Import ListNotations.
Local Open Scope list_scope.
Local Open Scope string_scope.

(* ================================================================== *)
(** ** Python strings *)

Module PyStr.

(** [needle in hay] on Python [str]. *)
Fixpoint str_in (needle hay : string) : bool :=
  if String.prefix needle hay then true
  else match hay with
       | EmptyString => false
       | String _ rest => str_in needle rest
       end.

(** [s.replace(old, new)] for one-character [old] and [new]. *)
Fixpoint replace_char (old new : ascii) (s : string) : string :=
  match s with
  | EmptyString => EmptyString
  | String c rest =>
      String (if Ascii.eqb c old then new else c) (replace_char old new rest)
  end.

(** Truthiness of a [str]: the empty string is falsy. *)
Definition truthy (s : string) : bool :=
  match s with EmptyString => false | String _ _ => true end.



End PyStr.

(* ================================================================== *)
(** ** Data model *)

(** A chat message: the dict [{"role": ..., "content": ...}] kept in
    [st.session_state["messages"]] and sent to OpenAI. *)
Record Message := mkMessage { role : string; content : string }.

(** [types.Content(role=..., parts=[types.Part.from_text(text=...)])]. *)
Record Content := mkContent { c_role : string; c_parts : list string }.

(** The four keys of [st.session_state] (lines 129-132). *)
Record Session := mkSession {
  messages : list Message;
  feedback_pending : bool;
  authenticated : bool;
  current_user : option string
}.

(** The five arguments of one call of [save_to_firebase]. *)
Record LogCall := mkLogCall {
  lc_user_id : option string;
  lc_model_name : string;
  lc_prompt : string;
  lc_full_response : string;
  lc_interaction_type : string
}.

(** The dict written below [/logs/<user>/<timestamp>] (lines 64-70). *)
Record LogPayload := mkLogPayload {
  model_name : string;
  prompt : string;
  response : string;
  interaction_type : string;
  full_timestamp : string
}.

(** Everything the script does that is visible from outside. *)
Inductive Event :=
| EvGenerateContent (api_key model : string) (contents : list Content)
                    (system_instruction : string)
| EvChatCompletionsCreate (api_key model : string) (msgs : list Message)
| EvSaveToFirebase (call : LogCall)
| EvDbSet (path : list string) (payload : LogPayload)
| EvWarning (text : string)
| EvError (text : string)
| EvSuccess (text : string)
| EvChatHistory (shown : list Message)
| EvChatInput (placeholder : string) (disabled : bool)
| EvFeedbackButtons.

(** How a Python computation leaves: an [Exception] with its [str(e)], or
    the host's rerun request ([st.rerun()], not an [Exception] subclass, so
    no [except Exception] handler catches it). *)
Inductive Exn :=
| PyException (description : string)
| RerunException.

Inductive Result (A : Type) :=
| Ok (value : A)
| Raise (e : Exn).
Arguments Ok {A} value.
Arguments Raise {A} e.

(** What an outbound call answers: a value, or the description of the
    exception it raises. *)
Definition Outcome (A : Type) : Type := (A + string)%type.

(** The outside of the script. *)
Record World := mkWorld {
  (** line 80: [genai.Client(api_key=st.secrets["api_keys"]["google"])] *)
  genai_client : Outcome string;
  (** lines 88-96: [client.models.generate_content(...)] then [.text], for
      a response that carries a text ([Responses] below has the others);
      temperature is the constant 0.7 *)
  generate_content :
    string -> string -> list Content -> string -> Outcome string;
  (** line 107: [OpenAIClient(api_key=st.secrets["api_keys"]["openai"])] *)
  openai_client : Outcome string;
  (** lines 116-120: [chat.completions.create(...)]; the answer is the
      content of each of its choices, in order, for choices that carry a
      text ([Responses] below has the others) *)
  chat_completions_create :
    string -> string -> list Message -> Outcome (list string);
  (** [str(KeyError(label))] *)
  key_error_text : string -> string;
  (** [str(IndexError)] for a list index out of range *)
  index_error_text : string;
  (** [db_ref] of line 50 is not [None] *)
  db_ref : bool;
  (** [db_ref.child("logs").child(u).child(t)]: the three segments are
      accepted as a path, or the description of the [ValueError] *)
  db_child : list string -> Outcome unit;
  (** [.set(payload)] on the reference so obtained *)
  db_set : list string -> LogPayload -> Outcome unit;
  (** the two [datetime.now().strftime(...)] of lines 61 and 69 *)
  now_key : string;
  now_full : string
}.

(* ================================================================== *)
(** ** The script monad: session state, emitted events, exceptions *)

Definition M (A : Type) : Type := Session -> Session * list Event * Result A.

Definition ret {A} (a : A) : M A := fun s => (s, [], Ok a).

Definition bind {A B} (m : M A) (f : A -> M B) : M B :=
  fun s =>
    match m s with
    | (s1, t1, Ok a) =>
        match f a s1 with
        | (s2, t2, r) => (s2, (t1 ++ t2)%list, r)
        end
    | (s1, t1, Raise e) => (s1, t1, Raise e)
    end.

Definition raise {A} (e : Exn) : M A := fun s => (s, [], Raise e).

Definition emit (e : Event) : M unit := fun s => (s, [e], Ok tt).

Definition get : M Session := fun s => (s, [], Ok s).

Definition put (s' : Session) : M unit := fun _ => (s', [], Ok tt).

(** [try: body except Exception as e: handler(str(e))]. *)
Definition try_except {A} (body : M A) (handler : string -> M A) : M A :=
  fun s =>
    match body s with
    | (s1, t1, Raise (PyException d)) =>
        match handler d s1 with
        | (s2, t2, r) => (s2, (t1 ++ t2)%list, r)
        end
    | other => other
    end.

(** An outbound call answered by the world. *)
Definition call {A} (o : Outcome A) : M A :=
  match o with
  | inl a => ret a
  | inr d => raise (PyException d)
  end.

Declare Scope script_scope.
Delimit Scope script_scope with script.
Notation "x <- m ;; k" := (bind m (fun x => k))
  (at level 61, m at next level, right associativity) : script_scope.
Notation "m ;; k" := (bind m (fun _ => k))
  (at level 61, right associativity) : script_scope.
Local Open Scope script_scope.

(* ================================================================== *)
(** ** Constants (lines 11-17) *)

Definition MODEL_MAPPING : list (string * string) :=
  [ ("gemini-3-pro-preview", "gemini-3-pro-preview");
    ("ChatGPT 5.2", "gpt-5.2-thinking") ].

Definition AUTHORIZED_STUDENT_IDS : list string := [ "Thunder" ].

(** [d[key]] on a dict literal. *)
Fixpoint dict_get (d : list (string * string)) (key : string) : option string :=
  match d with
  | [] => None
  | (k, v) :: rest => if String.eqb k key then Some v else dict_get rest key
  end.

(** [key in list_of_str]. *)
Definition list_in (key : string) (l : list string) : bool :=
  existsb (String.eqb key) l.

(* ================================================================== *)
(** ** get_ai_response (lines 77-126) *)

(** Lines 81-86: the history in Gemini's message shape. *)
Definition api_contents (chat_history : list Message) : list Content :=
  map (fun m =>
         mkContent (if String.eqb (role m) "user" then "user" else "model")
                   [content m])
      chat_history.

(** Lines 110-113: the history in OpenAI's message shape. *)
Definition oa_role (m : Message) : string :=
  if String.eqb (role m) "model" then "assistant" else role m.

Definition oa_messages (system_instruction_text : string)
           (chat_history : list Message) : list Message :=
  mkMessage "system" system_instruction_text
  :: map (fun m => mkMessage (oa_role m) (content m)) chat_history.

(** Lines 80-96: the body of the outer [try]. *)
Definition gemini_attempt (w : World) (model_selection : string)
           (chat_history : list Message) (system_instruction_text : string)
  : M string :=
  client <- call (genai_client w) ;;
  let contents := api_contents chat_history in
  model <- match dict_get MODEL_MAPPING model_selection with
           | Some id => ret id
           | None => raise (PyException (key_error_text w model_selection))
           end ;;
  emit (EvGenerateContent client model contents system_instruction_text) ;;
  call (generate_content w client model contents system_instruction_text).

(** Lines 107-121: the body of the inner [try]. *)
Definition openai_attempt (w : World) (chat_history : list Message)
           (system_instruction_text : string) : M string :=
  oa_client <- call (openai_client w) ;;
  let msgs := oa_messages system_instruction_text chat_history in
  emit (EvChatCompletionsCreate oa_client "gpt-5.2" msgs) ;;
  choices <- call (chat_completions_create w oa_client "gpt-5.2" msgs) ;;
  match choices with
  | first :: _ => ret first
  | [] => raise (PyException (index_error_text w))
  end.

Definition is_unavailable (error_msg : string) : bool :=
  PyStr.str_in "502" error_msg || PyStr.str_in "Bad Gateway" error_msg.

Definition get_ai_response (w : World) (model_selection : string)
           (chat_history : list Message) (system_instruction_text : string)
  : M string :=
  try_except
    (gemini_attempt w model_selection chat_history system_instruction_text)
    (fun error_msg =>
       if is_unavailable error_msg then
         emit (EvWarning "Gemini is currently unavailable (502). Switching to ChatGPT 5.2 fallback...") ;;
         try_except
           (openai_attempt w chat_history system_instruction_text)
           (fun fallback_err =>
              ret ("Both models failed. Gemini Error: " ++ error_msg
                   ++ " | OpenAI Error: " ++ fallback_err))
       else
         ret ("Error: " ++ error_msg)).

(* ================================================================== *)
(** ** get_ai_response when a response carries no text *)

(** [response.text] (line 96) and [choices[0].message.content] (line 121)
    are a [str] or [None]; the function returns them unchecked. *)
Record Responses := mkResponses {
  (** lines 88-96: [generate_content(...)] then [.text] *)
  response_text :
    string -> string -> list Content -> string -> Outcome (option string);
  (** lines 116-121: [chat.completions.create(...)], then the [content] of
      the message of each choice, in order *)
  choice_contents :
    string -> string -> list Message -> Outcome (list (option string))
}.

(** Lines 80-96, the value returned being a [str] or [None]. *)
Definition gemini_attempt_unchecked (w : World) (r : Responses)
           (model_selection : string) (chat_history : list Message)
           (system_instruction_text : string) : M (option string) :=
  client <- call (genai_client w) ;;
  let contents := api_contents chat_history in
  model <- match dict_get MODEL_MAPPING model_selection with
           | Some id => ret id
           | None => raise (PyException (key_error_text w model_selection))
           end ;;
  emit (EvGenerateContent client model contents system_instruction_text) ;;
  call (response_text r client model contents system_instruction_text).

(** Lines 107-121, the value returned being a [str] or [None]. *)
Definition openai_attempt_unchecked (w : World) (r : Responses)
           (chat_history : list Message) (system_instruction_text : string)
  : M (option string) :=
  oa_client <- call (openai_client w) ;;
  let msgs := oa_messages system_instruction_text chat_history in
  emit (EvChatCompletionsCreate oa_client "gpt-5.2" msgs) ;;
  choices <- call (choice_contents r oa_client "gpt-5.2" msgs) ;;
  match choices with
  | first :: _ => ret first
  | [] => raise (PyException (index_error_text w))
  end.

(** Lines 77-126, the value returned being a [str] or [None]. *)
Definition get_ai_response_unchecked (w : World) (r : Responses)
           (model_selection : string) (chat_history : list Message)
           (system_instruction_text : string) : M (option string) :=
  try_except
    (gemini_attempt_unchecked w r model_selection chat_history
                              system_instruction_text)
    (fun error_msg =>
       if is_unavailable error_msg then
         emit (EvWarning "Gemini is currently unavailable (502). Switching to ChatGPT 5.2 fallback...") ;;
         try_except
           (openai_attempt_unchecked w r chat_history system_instruction_text)
           (fun fallback_err =>
              ret (Some ("Both models failed. Gemini Error: " ++ error_msg
                         ++ " | OpenAI Error: " ++ fallback_err)))
       else
         ret (Some ("Error: " ++ error_msg))).

(** The responses of a world, all of which carry their text. *)
Definition responses_with_text (w : World) : Responses :=
  mkResponses
    (fun key model contents sys =>
       match generate_content w key model contents sys with
       | inl text => inl (Some text)
       | inr d => inr d
       end)
    (fun key model msgs =>
       match chat_completions_create w key model msgs with
       | inl choices => inl (map Some choices)
       | inr d => inr d
       end).

(** [Some text] for a returned [str]. *)
Definition as_value (out : Session * list Event * Result string)
  : Session * list Event * Result (option string) :=
  match out with
  | (s, tr, Ok text) => (s, tr, Ok (Some text))
  | (s, tr, Raise e) => (s, tr, Raise e)
  end.

(** Gemini answers with a response that has no text part. *)
Definition responses_without_text : Responses :=
  mkResponses (fun _ _ _ _ => inl None) (fun _ _ _ => inl [Some "unused"]).

(** Gemini is unavailable and the first choice of OpenAI has no content. *)
Definition fallback_without_content : Responses :=
  mkResponses (fun _ _ _ _ => inr "502 Bad Gateway")
              (fun _ _ _ => inl [None]).

(* ================================================================== *)
(** ** get_firebase_connection (lines 28-47) *)

Module Connection.

(** [s.replace(old, new)] for an [old] of two characters [a], [b]: the
    occurrences are replaced from left to right, without overlap. *)
Fixpoint replace_pair (a b : ascii) (new : string) (s : string) : string :=
  match s with
  | String c (String d rest as tail) =>
      if Ascii.eqb c a && Ascii.eqb d b
      then new ++ replace_pair a b new rest
      else String c (replace_pair a b new tail)
  | _ => s
  end.

Definition backslash : ascii := "\"%char.
Definition newline : ascii := "010"%char.

(** [private_key.replace("\\n", "\n")]: a backslash followed by the letter n
    becomes a line feed. *)
Definition unescape_newlines (private_key : string) : string :=
  replace_pair backslash "n"%char (String newline "") private_key.

(** [c.isspace()] for a character below 256: tab to carriage return, the
    four separators 28 to 31, space, next line (133), no-break space
    (160). *)
Definition isspace (c : ascii) : bool :=
  let n := nat_of_ascii c in
  ((9 <=? n)%nat && (n <=? 13)%nat) || ((28 <=? n)%nat && (n <=? 32)%nat)
  || (n =? 133)%nat || (n =? 160)%nat.

Fixpoint lstrip (s : string) : string :=
  match s with
  | EmptyString => EmptyString
  | String c rest => if isspace c then lstrip rest else s
  end.

Fixpoint rstrip (s : string) : string :=
  match s with
  | EmptyString => EmptyString
  | String c rest =>
      match rstrip rest with
      | EmptyString => if isspace c then EmptyString else String c EmptyString
      | kept => String c kept
      end
  end.

(** [s.strip()]. *)
Definition strip (s : string) : string := rstrip (lstrip s).





(** [d[key] = value] on a dict: the key keeps its place, a new key goes to
    the end. *)
Fixpoint dict_set (d : list (string * string)) (key value : string)
  : list (string * string) :=
  match d with
  | [] => [ (key, value) ]
  | (k, v) :: rest =>
      if String.eqb k key then (k, value) :: rest
      else (k, v) :: dict_set rest key value
  end.

(** [db.reference(path)]. *)
Inductive Reference := MkReference (path : string).

(** What the function does to Firebase and to the page. *)
Inductive SetupEvent :=
| SeCertificate (cred_info : list (string * string))
| SeInitializeApp (cred_info : list (string * string)) (databaseURL : string)
| SeReference (path : string)
| SeError (text : string).

(** The outside of [get_firebase_connection]. *)
Record FirebaseEnv := mkFirebaseEnv {
  (** [firebase_admin._apps] is not empty *)
  apps_initialized : bool;
  (** [dict(st.secrets["firebase_service_account"])] *)
  secret_service_account : Outcome (list (string * string));
  (** [st.secrets["firebase_db_url"]] *)
  secret_db_url : Outcome string;
  (** [str(KeyError(key))] *)
  missing_key_text : string -> string;
  (** [credentials.Certificate(cred_info)] *)
  certificate : list (string * string) -> Outcome unit;
  (** [firebase_admin.initialize_app(cred, {'databaseURL': db_url})] *)
  initialize_app : list (string * string) -> string -> Outcome unit;
  (** [db.reference(path)] *)
  reference : string -> Outcome unit
}.

(** Events so far, and a value or the description of the exception. *)
Definition Setup (A : Type) : Type := (list SetupEvent * Outcome A)%type.

Definition setup_ret {A} (a : A) : Setup A := ([], inl a).

Definition setup_bind {A B} (m : Setup A) (f : A -> Setup B) : Setup B :=
  match m with
  | (t1, inl a) => match f a with (t2, r) => ((t1 ++ t2)%list, r) end
  | (t1, inr d) => (t1, inr d)
  end.

Definition setup_call {A} (e : SetupEvent) (o : Outcome A) : Setup A :=
  ([e], o).

(** Lines 32-41: the body of [if not firebase_admin._apps:]. *)
Definition initialize (env : FirebaseEnv) : Setup unit :=
  setup_bind ([], secret_service_account env) (fun cred_info =>
  setup_bind ([], match dict_get cred_info "private_key" with
                  | Some k => inl k
                  | None => inr (missing_key_text env "private_key")
                  end) (fun private_key =>
  let cred_info :=
    dict_set cred_info "private_key" (unescape_newlines private_key) in
  setup_bind ([], secret_db_url env) (fun url =>
  let db_url := strip url in
  setup_bind (setup_call (SeCertificate cred_info)
                         (certificate env cred_info)) (fun _ =>
  setup_call (SeInitializeApp cred_info db_url)
             (initialize_app env cred_info db_url))))).

(** Lines 31-44: the body of the [try]. *)
Definition connection_attempt (env : FirebaseEnv) : Setup Reference :=
  setup_bind (if apps_initialized env then setup_ret tt else initialize env)
             (fun _ =>
  setup_bind (setup_call (SeReference "/") (reference env "/")) (fun _ =>
  setup_ret (MkReference "/"))).

Definition get_firebase_connection (env : FirebaseEnv)
  : list SetupEvent * option Reference :=
  match connection_attempt env with
  | (tr, inl ref) => (tr, Some ref)
  | (tr, inr e) => ((tr ++ [SeError ("Firebase Init Error: " ++ e)])%list, None)
  end.

(** The calls of [initialize_app] in a trace: credentials and URL. *)
Fixpoint initializations (tr : list SetupEvent)
  : list (list (string * string) * string) :=
  match tr with
  | [] => []
  | SeInitializeApp cred url :: rest => (cred, url) :: initializations rest
  | _ :: rest => initializations rest
  end.



End Connection.

(* ================================================================== *)
(** ** Session state access *)

Definition read {A} (field : Session -> A) : M A :=
  fun s => (s, [], Ok (field s)).

Definition set_messages (v : list Message) : M unit :=
  fun s => (mkSession v (feedback_pending s) (authenticated s) (current_user s),
            [], Ok tt).

Definition set_feedback_pending (v : bool) : M unit :=
  fun s => (mkSession (messages s) v (authenticated s) (current_user s),
            [], Ok tt).

Definition set_authenticated (v : bool) : M unit :=
  fun s => (mkSession (messages s) (feedback_pending s) v (current_user s),
            [], Ok tt).

Definition set_current_user (v : option string) : M unit :=
  fun s => (mkSession (messages s) (feedback_pending s) (authenticated s) v,
            [], Ok tt).

(** [st.session_state["messages"].append(m)]. *)
Definition append_message (m : Message) : M unit :=
  msgs <- read messages ;;
  set_messages (msgs ++ [m])%list.

(** Lines 129-132 on a session state without keys. *)
Definition initial_session : Session := mkSession [] false false None.

(** [st.session_state.clear()] (line 176).  It is always followed by
    [st.rerun()], and the rerun starts with lines 129-132, which put the
    four defaults back before anything reads a key. *)
Definition session_state_clear : M unit := put initial_session.

(** [l[-k]] for [k >= 1]. *)
Definition index_from_end {A} (w : World) (l : list A) (k : nat) : M A :=
  if (List.length l <? k)%nat then raise (PyException (index_error_text w))
  else match nth_error l (List.length l - k) with
       | Some x => ret x
       | None => raise (PyException (index_error_text w))
       end.

(** [str(user_id)] for a user id that is a [str] or [None]. *)
Definition str_of_user (user_id : option string) : string :=
  match user_id with
  | Some u => u
  | None => "None"
  end.

(* ================================================================== *)
(** ** save_to_firebase (lines 54-74) *)

Definition save_to_firebase (w : World) (user_id : option string)
           (model_name_ prompt_ full_response interaction_type_ : string)
  : M (option bool) :=
  emit (EvSaveToFirebase
          (mkLogCall user_id model_name_ prompt_ full_response
                     interaction_type_)) ;;
  if db_ref w then
    try_except
      (let clean_user_id :=
         PyStr.replace_char "."%char "_"%char (str_of_user user_id) in
       let timestamp_key := now_key w in
       let path := [ "logs"; clean_user_id; timestamp_key ] in
       let payload :=
         mkLogPayload model_name_ prompt_ full_response interaction_type_
                      (now_full w) in
       call (db_child w path) ;;
       emit (EvDbSet path payload) ;;
       call (db_set w path payload) ;;
       ret (Some true))
      (fun e =>
         emit (EvError ("Firebase Logging error: " ++ e)) ;;
         ret (Some false))
  else ret None.

(* ================================================================== *)
(** ** Widgets of the sidebar (lines 194-206) *)

Record Widgets := mkWidgets {
  dev_mode : bool;           (** the "Developer Settings" checkbox *)
  model_choice : nat;        (** index chosen in the "AI Model" select box *)
  system_message : string    (** text of the "System Message" area *)
}.

Definition selected_label (wd : Widgets) : string :=
  if dev_mode wd then
    nth (model_choice wd) (map fst MODEL_MAPPING) "gemini-3-pro-preview"
  else "gemini-3-pro-preview".

Definition system_instruction_input (wd : Widgets) : string :=
  if dev_mode wd then system_message wd else "Business Planning Assistant".

(* ================================================================== *)
(** ** handle_feedback (lines 135-153) *)

Definition clarification_prompt_of (last_ai_reply : string) : string :=
  "I don't understand the previous explanation: '" ++ last_ai_reply
  ++ "'. Please break it down further.".

Definition handle_feedback (w : World) (wd : Widgets) (understood : bool)
  : M unit :=
  let interaction :=
    if understood then "UNDERSTOOD_FEEDBACK" else "CLARIFICATION_REQUESTED" in
  msgs <- read messages ;;
  before_last <- index_from_end w msgs 2 ;;
  let last_user_prompt := content before_last in
  last <- index_from_end w msgs 1 ;;
  let last_ai_reply := content last in
  user <- read current_user ;;
  save_to_firebase w user (selected_label wd) last_ai_reply interaction
                   "FEEDBACK_EVENT" ;;
  if negb understood then
    let clarification_prompt := clarification_prompt_of last_ai_reply in
    append_message (mkMessage "user" clarification_prompt) ;;
    history <- read messages ;;
    ai_reply <- get_ai_response w (selected_label wd) history
                                (system_instruction_input wd) ;;
    user' <- read current_user ;;
    save_to_firebase w user' (selected_label wd) clarification_prompt ai_reply
                     "CLARIFICATION_RESPONSE" ;;
    append_message (mkMessage "assistant" ai_reply) ;;
    set_feedback_pending true
  else
    set_feedback_pending false.

(* ================================================================== *)
(** ** The script, top to bottom (lines 155-287) *)

(** The widget that triggered this run of the script. *)
Inductive Input :=
| NoInput
| ClickLogin (u_id : string)
| ClickLogout
| ClickClearChat
| SubmitPrompt (text : string)
| ClickFeedback (understood : bool).

Definition st_rerun {A} : M A := raise RerunException.

(** Lines 189-190: the body of the "Clear Chat" handler. *)
Definition clear_chat : M unit :=
  set_messages [] ;;
  set_feedback_pending false.

(** Lines 159-181. *)
Definition sidebar_account (inp : Input) : M unit :=
  auth <- read authenticated ;;
  if negb auth then
    match inp with
    | ClickLogin u_id =>
        if list_in u_id AUTHORIZED_STUDENT_IDS then
          set_authenticated true ;;
          set_current_user (Some u_id) ;;
          emit (EvSuccess "Welcome!") ;;
          st_rerun
        else emit (EvError "Invalid Student ID")
    | _ => ret tt
    end
  else
    match inp with
    | ClickLogout => session_state_clear ;; st_rerun
    | _ => ret tt
    end.

(** Lines 184-191. *)
Definition sidebar_clear (inp : Input) : M unit :=
  auth <- read authenticated ;;
  if auth then
    match inp with
    | ClickClearChat => clear_chat ;; st_rerun
    | _ => ret tt
    end
  else ret tt.

(** [st.chat_input(placeholder, disabled=...)]: a disabled input takes no
    submission. *)
Definition chat_input (disabled : bool) (inp : Input) : option string :=
  if disabled then None
  else match inp with
       | SubmitPrompt text => Some text
       | _ => None
       end.

(** Lines 238-268: the body of [if prompt:]. *)
Definition submit_prompt (w : World) (wd : Widgets) (prompt_ : string)
  : M unit :=
  append_message (mkMessage "user" prompt_) ;;
  history <- read messages ;;
  reply <- get_ai_response w (selected_label wd) history
                           (system_instruction_input wd) ;;
  user <- read current_user ;;
  save_to_firebase w user (selected_label wd) prompt_ reply "INITIAL_QUERY" ;;
  append_message (mkMessage "assistant" reply) ;;
  set_feedback_pending true ;;
  st_rerun.

(** Lines 213-287. *)
Definition main_area (w : World) (wd : Widgets) (inp : Input) : M unit :=
  auth <- read authenticated ;;
  if negb auth then
    emit (EvWarning "Please login with an authorized Student ID in the sidebar.")
  else
    msgs <- read messages ;;
    emit (EvChatHistory msgs) ;;
    pending <- read feedback_pending ;;
    let input_placeholder :=
      if pending then "Please give feedback on the last answer..."
      else "Ask your question here..." in
    emit (EvChatInput input_placeholder pending) ;;
    match chat_input pending inp with
    | Some prompt_ =>
        if PyStr.truthy prompt_ then submit_prompt w wd prompt_ else ret tt
    | None => ret tt
    end ;;
    pending' <- read feedback_pending ;;
    if pending' then emit EvFeedbackButtons else ret tt.

(** An [on_click] callback runs before the script body.  The feedback
    buttons exist only if the previous run rendered them (line 271, inside
    the authenticated branch). *)
Definition on_click_callback (w : World) (wd : Widgets) (inp : Input)
  : M unit :=
  auth <- read authenticated ;;
  pending <- read feedback_pending ;;
  match inp with
  | ClickFeedback understood =>
      if auth && pending then handle_feedback w wd understood else ret tt
  | _ => ret tt
  end.

(** The script body, top to bottom. *)
Definition script_body (w : World) (wd : Widgets) (inp : Input) : M unit :=
  sidebar_account inp ;;
  sidebar_clear inp ;;
  main_area w wd inp.

(** One run of the script. *)
Definition script_run (w : World) (wd : Widgets) (inp : Input) : M unit :=
  on_click_callback w wd inp ;;
  script_body w wd inp.

(** What the host does with one user action: it runs the script, and when
    the script asks for a rerun it runs it once more with no widget
    triggered. *)
Definition interaction (w : World) (wd : Widgets) (inp : Input) : M unit :=
  fun s =>
    match script_run w wd inp s with
    | (s1, t1, Raise RerunException) =>
        match script_run w wd NoInput s1 with
        | (s2, t2, r) => (s2, (t1 ++ t2)%list, r)
        end
    | other => other
    end.

Definition session_of {A} (out : Session * list Event * Result A) : Session :=
  fst (fst out).

Definition events_of {A} (out : Session * list Event * Result A)
  : list Event :=
  snd (fst out).

Definition result_of {A} (out : Session * list Event * Result A) : Result A :=
  snd out.

(** Session states the program can be in between two user actions. *)
Inductive reachable : Session -> Prop :=
| reachable_initial : reachable initial_session
| reachable_interaction (s : Session) (w : World) (wd : Widgets) (inp : Input) :
    reachable s -> reachable (session_of (interaction w wd inp s)).

(* ================================================================== *)
(** ** Reading the trace *)

(** The calls of [save_to_firebase], in order. *)
Fixpoint log_calls (tr : list Event) : list LogCall :=
  match tr with
  | [] => []
  | EvSaveToFirebase c :: rest => c :: log_calls rest
  | _ :: rest => log_calls rest
  end.

Definition is_secondary_call (e : Event) : bool :=
  match e with
  | EvChatCompletionsCreate _ _ _ => true
  | _ => false
  end.

Definition is_primary_call (e : Event) : bool :=
  match e with
  | EvGenerateContent _ _ _ _ => true
  | _ => false
  end.

(** Number of calls made to the secondary provider. *)
Definition secondary_calls (tr : list Event) : nat :=
  List.length (filter is_secondary_call tr).

Definition primary_calls (tr : list Event) : nat :=
  List.length (filter is_primary_call tr).

(** Events [save_to_firebase] can emit. *)
Definition logger_event (e : Event) : Prop :=
  match e with
  | EvSaveToFirebase _ | EvDbSet _ _ | EvError _ => True
  | _ => False
  end.

(** Events [get_ai_response] can emit for history [h] and system
    instruction [sys]. *)
Definition generator_event (sys : string) (h : list Message) (e : Event)
  : Prop :=
  match e with
  | EvGenerateContent _ _ contents sys' =>
      contents = api_contents h /\ sys' = sys
  | EvChatCompletionsCreate _ model msgs =>
      model = "gpt-5.2" /\ msgs = oa_messages sys h
  | EvWarning _ => True
  | _ => False
  end.

(** The roles the script itself writes into the store. *)
Definition program_role (m : Message) : Prop :=
  role m = "user" \/ role m = "assistant".

Definition roles_ok (h : list Message) : Prop := Forall program_role h.

(** Line 112 takes its first branch on [m]. *)
Definition remapped (m : Message) : bool := String.eqb (role m) "model".

(** Number of turns of [h] whose role line 112 rewrites. *)
Definition remap_count (h : list Message) : nat :=
  List.length (filter remapped h).

(** A request to the secondary provider that carries a history of the
    program's own roles, every turn as it is in the store. *)
Definition secondary_call_identity (e : Event) : Prop :=
  match e with
  | EvChatCompletionsCreate _ _ msgs =>
      exists sys h,
        msgs = oa_messages sys h /\ roles_ok h /\ remap_count h = 0 /\
        msgs = mkMessage "system" sys :: h
  | _ => True
  end.

(* ================================================================== *)
(** ** The script as a transition system *)

(** What one user action can do to the session state. *)
Inductive session_effect (s : Session) : Input -> Session -> Prop :=
| effect_none (inp : Input) :
    session_effect s inp s
| effect_login (u_id : string) :
    authenticated s = false ->
    list_in u_id AUTHORIZED_STUDENT_IDS = true ->
    session_effect s (ClickLogin u_id)
      (mkSession (messages s) (feedback_pending s) true (Some u_id))
| effect_logout :
    authenticated s = true ->
    session_effect s ClickLogout initial_session
| effect_clear :
    authenticated s = true ->
    session_effect s ClickClearChat
      (mkSession [] false true (current_user s))
| effect_prompt (text reply : string) :
    authenticated s = true ->
    feedback_pending s = false ->
    PyStr.truthy text = true ->
    session_effect s (SubmitPrompt text)
      (mkSession (messages s ++ [ mkMessage "user" text;
                                  mkMessage "assistant" reply ])%list
                 true true (current_user s))
| effect_understood :
    authenticated s = true ->
    feedback_pending s = true ->
    2 <= List.length (messages s) ->
    session_effect s (ClickFeedback true)
      (mkSession (messages s) false true (current_user s))
| effect_clarify (request reply : string) :
    authenticated s = true ->
    feedback_pending s = true ->
    2 <= List.length (messages s) ->
    session_effect s (ClickFeedback false)
      (mkSession (messages s ++ [ mkMessage "user" request;
                                  mkMessage "assistant" reply ])%list
                 true true (current_user s)).

(** The effect of one user action on the session, and the requests it
    sends to the secondary provider. *)
Definition interaction_spec (w : World) (wd : Widgets) (inp : Input)
           (s : Session) : Prop :=
  exists s' tr r,
    interaction w wd inp s = (s', tr, r)
    /\ session_effect s inp s'
    /\ (roles_ok (messages s) -> Forall secondary_call_identity tr).

(* ================================================================== *)
(** ** Resolution statements and sample inputs *)

Definition fallback_warning : Event :=
  EvWarning "Gemini is currently unavailable (502). Switching to ChatGPT 5.2 fallback...".

(** A world whose primary provider answers every call with [answer]. *)
Definition world_primary (answer : Outcome string)
           (fallback : Outcome (list string)) : World :=
  mkWorld (inl "google-key") (fun _ _ _ _ => answer)
          (inl "openai-key") (fun _ _ _ => fallback)
          (fun label => "'" ++ label ++ "'") "list index out of range"
          true (fun _ => inl tt) (fun _ _ => inl tt)
          "20260101_120000" "2026-01-01 12:00:00".

Definition sample_history : list Message :=
  [ mkMessage "user" "What is a break-even point?" ].

Definition default_widgets : Widgets :=
  mkWidgets false 0 "Business Planning Assistant".

Definition answering_world : World :=
  world_primary (inl "Break it into fixed and variable costs.")
                (inl ["unused"]).

(** A session awaiting feedback on its first exchange. *)
Definition pending_session : Session :=
  mkSession [ mkMessage "user" "What is a break-even point?";
              mkMessage "assistant" "Revenue equals cost." ]
            true true (Some "Thunder").

(** The session after logging in and asking a first question. *)
Definition after_first_exchange : Session :=
  session_of
    (interaction answering_world default_widgets
       (SubmitPrompt "What is a break-even point?")
       (session_of
          (interaction answering_world default_widgets
             (ClickLogin "Thunder") initial_session))).

(** The logger call made first by [handle_feedback]. *)
Definition feedback_event_call (wd : Widgets) (s : Session)
           (last_ai_reply : string) (understood : bool) : LogCall :=
  mkLogCall (current_user s) (selected_label wd) last_ai_reply
            (if understood then "UNDERSTOOD_FEEDBACK"
             else "CLARIFICATION_REQUESTED")
            "FEEDBACK_EVENT".

(** What resolving with "I understand!" is said to do, with the
    interaction kind of the single logger call left as a parameter. *)
Definition understood_resolution (w : World) (wd : Widgets) (s : Session)
           (kind : string) : Prop :=
  let out := handle_feedback w wd true s in
  result_of out = Ok tt /\
  feedback_pending (session_of out) = false /\
  exists c, log_calls (events_of out) = [c] /\ lc_interaction_type c = kind.

(** What resolving with "I need some help!" is said to do, with the
    interaction kinds of the two logger calls left as parameters. *)
Definition clarification_resolution (w : World) (wd : Widgets) (s : Session)
           (kind1 kind2 : string) : Prop :=
  let out := handle_feedback w wd false s in
  result_of out = Ok tt /\
  feedback_pending (session_of out) = true /\
  (exists request reply,
      messages (session_of out)
      = (messages s ++ [ mkMessage "user" request;
                         mkMessage "assistant" reply ])%list) /\
  exists c1 c2,
    log_calls (events_of out) = [c1; c2] /\
    lc_interaction_type c1 = kind1 /\ lc_interaction_type c2 = kind2.

(** A rendered page that shows an empty chat history together with a
    disabled prompt box or the feedback buttons. *)
Definition shows_empty_pending (tr : list Event) : Prop :=
  In (EvChatHistory []) tr /\
  (In EvFeedbackButtons tr \/
   exists placeholder, In (EvChatInput placeholder true) tr).

(* ================================================================== *)
(** ** The helpers read as functions of the world *)

(** Neither [get_ai_response] nor [save_to_firebase] reads the session
    state; these are their answers and their events, taken from a run in
    the initial session. *)
Definition answer_of (w : World) (model_selection : string)
           (chat_history : list Message) (system_instruction_text : string)
  : string :=
  match result_of (get_ai_response w model_selection chat_history
                                   system_instruction_text initial_session)
  with
  | Ok text => text
  | Raise _ => ""
  end.

Definition requests_of (w : World) (model_selection : string)
           (chat_history : list Message) (system_instruction_text : string)
  : list Event :=
  events_of (get_ai_response w model_selection chat_history
                             system_instruction_text initial_session).

Definition logging_of (w : World) (call : LogCall) : list Event :=
  events_of (save_to_firebase w (lc_user_id call) (lc_model_name call)
                              (lc_prompt call) (lc_full_response call)
                              (lc_interaction_type call) initial_session).

(** The database writes of a trace: path and payload, in order. *)
Fixpoint db_writes (tr : list Event) : list (list string * LogPayload) :=
  match tr with
  | [] => []
  | EvDbSet path payload :: rest => (path, payload) :: db_writes rest
  | _ :: rest => db_writes rest
  end.

(** The messages [st.error] showed during a trace. *)
Fixpoint errors_shown (tr : list Event) : list string :=
  match tr with
  | [] => []
  | EvError text :: rest => text :: errors_shown rest
  | _ :: rest => errors_shown rest
  end.

(** What lines 213-287 render when no prompt is taken. *)
Definition page (s : Session) : list Event :=
  if authenticated s then
    [ EvChatHistory (messages s);
      EvChatInput (if feedback_pending s
                   then "Please give feedback on the last answer..."
                   else "Ask your question here...")
                  (feedback_pending s) ]
    ++ (if feedback_pending s then [EvFeedbackButtons] else [])
  else
    [ EvWarning "Please login with an authorized Student ID in the sidebar." ].

(** Turns come in pairs, a user turn then an assistant turn. *)
Fixpoint alternating (h : list Message) : Prop :=
  match h with
  | [] => True
  | q :: a :: rest =>
      role q = "user" /\ role a = "assistant" /\ alternating rest
  | _ => False
  end.

(** Gemini's name of a speaker, in OpenAI's spelling. *)
Definition gemini_role_for_openai (c : Content) : string :=
  if String.eqb (c_role c) "model" then "assistant" else c_role c.

(** The roles the two translations are written for. *)
Definition known_role (m : Message) : Prop :=
  role m = "user" \/ role m = "assistant" \/ role m = "model".

(** The requests to either provider in a trace, in order. *)
Definition provider_requests (tr : list Event) : list Event :=
  filter (fun e => is_primary_call e || is_secondary_call e) tr.

(** The clarification exchange [handle_feedback(False)] adds to a store
    that ends with [last_ai_reply]. *)
Definition clarification_history (s : Session) : list Message :=
  (messages s
   ++ [ mkMessage "user"
          (clarification_prompt_of
             (content (List.last (messages s) (mkMessage "" "")))) ])%list.

(** The session after a prompt has been taken (lines 240-267). *)
Definition session_after_prompt (w : World) (wd : Widgets) (text : string)
           (s : Session) : Session :=
  let history := (messages s ++ [mkMessage "user" text])%list in
  let reply := answer_of w (selected_label wd) history
                         (system_instruction_input wd) in
  mkSession (history ++ [mkMessage "assistant" reply])%list true
            (authenticated s) (current_user s).

(** The outbound events of a taken prompt: the request(s) for the answer,
    then the INITIAL_QUERY log. *)
Definition prompt_events (w : World) (wd : Widgets) (text : string)
           (s : Session) : list Event :=
  let history := (messages s ++ [mkMessage "user" text])%list in
  let reply := answer_of w (selected_label wd) history
                         (system_instruction_input wd) in
  (requests_of w (selected_label wd) history (system_instruction_input wd)
   ++ logging_of w (mkLogCall (current_user s) (selected_label wd) text reply
                              "INITIAL_QUERY"))%list.

(** The session and the outbound events after [handle_feedback] on a store
    of at least two turns. *)
Definition session_after_feedback (w : World) (wd : Widgets)
           (understood : bool) (s : Session) : Session :=
  if understood then
    mkSession (messages s) false (authenticated s) (current_user s)
  else
    let history := clarification_history s in
    let reply := answer_of w (selected_label wd) history
                           (system_instruction_input wd) in
    mkSession (history ++ [mkMessage "assistant" reply])%list true
              (authenticated s) (current_user s).

Definition feedback_events (w : World) (wd : Widgets) (understood : bool)
           (s : Session) : list Event :=
  let last_ai_reply := content (List.last (messages s) (mkMessage "" "")) in
  if understood then
    logging_of w (feedback_event_call wd s last_ai_reply true)
  else
    let request := clarification_prompt_of last_ai_reply in
    let history := clarification_history s in
    let reply := answer_of w (selected_label wd) history
                           (system_instruction_input wd) in
    (logging_of w (feedback_event_call wd s last_ai_reply false)
     ++ requests_of w (selected_label wd) history
                    (system_instruction_input wd)
     ++ logging_of w (mkLogCall (current_user s) (selected_label wd)
                                request reply "CLARIFICATION_RESPONSE"))%list.

(** [n] clicks on "I need some help!" in a row, as callbacks. *)
Fixpoint clarify_rounds (w : World) (wd : Widgets) (n : nat) : M unit :=
  match n with
  | 0 => ret tt
  | S k => handle_feedback w wd false ;; clarify_rounds w wd k
  end.

(** A session with a single turn, as an interrupted run leaves it. *)
Definition one_turn_session : Session :=
  mkSession [ mkMessage "user" "What is a break-even point?" ]
            true true (Some "Thunder").

(** A logged-in session with an empty chat. *)
Definition fresh_session (u_id : string) : Session :=
  mkSession [] false true (Some u_id).

(** What holds of the session between two user actions. *)
Definition session_invariant (s : Session) : Prop :=
  (authenticated s = false -> s = initial_session) /\
  (authenticated s = true -> current_user s = Some "Thunder") /\
  alternating (messages s) /\
  (feedback_pending s = true -> messages s <> []).


(** The session state machine, with the generator as a function from the
    history to its answer. *)
Definition next_session (answer : list Message -> string) (inp : Input)
           (s : Session) : Session :=
  match inp with
  | NoInput => s
  | ClickLogin u_id =>
      if negb (authenticated s) && list_in u_id AUTHORIZED_STUDENT_IDS
      then mkSession (messages s) (feedback_pending s) true (Some u_id)
      else s
  | ClickLogout => if authenticated s then initial_session else s
  | ClickClearChat =>
      if authenticated s then mkSession [] false true (current_user s) else s
  | SubmitPrompt text =>
      if authenticated s && negb (feedback_pending s) && PyStr.truthy text
      then
        let history := (messages s ++ [mkMessage "user" text])%list in
        mkSession (history ++ [mkMessage "assistant" (answer history)])%list
                  true true (current_user s)
      else s
  | ClickFeedback understood =>
      if authenticated s && feedback_pending s
         && (2 <=? List.length (messages s))%nat
      then
        if understood
        then mkSession (messages s) false true (current_user s)
        else
          let history := clarification_history s in
          mkSession (history ++ [mkMessage "assistant" (answer history)])%list
                    true true (current_user s)
      else s
  end.

(** Two worlds whose providers behave alike; their databases and clocks
    may differ. *)
Definition same_providers (w w' : World) : Prop :=
  genai_client w = genai_client w' /\
  (forall key model contents sys,
      generate_content w key model contents sys
      = generate_content w' key model contents sys) /\
  openai_client w = openai_client w' /\
  (forall key model msgs,
      chat_completions_create w key model msgs
      = chat_completions_create w' key model msgs) /\
  (forall label, key_error_text w label = key_error_text w' label) /\
  index_error_text w = index_error_text w'.

(** A world like [answering_world] whose database rejects every write. *)
Definition world_with_failing_database : World :=
  mkWorld (inl "google-key")
          (fun _ _ _ _ => inl "Break it into fixed and variable costs.")
          (inl "openai-key") (fun _ _ _ => inl ["unused"])
          (fun label => "'" ++ label ++ "'") "list index out of range"
          true (fun _ => inl tt) (fun _ _ => inr "permission denied")
          "20260101_120000" "2026-01-01 12:00:00".

(** A database that refuses "#" in a path segment, as [child] does. *)
Definition refuses_hash (path : list string) : Outcome unit :=
  if existsb (PyStr.str_in "#") path
  then inr "Invalid path: illegal characters."
  else inl tt.

(** A world whose database refuses such paths. *)
Definition world_refusing_hash : World :=
  mkWorld (inl "google-key") (fun _ _ _ _ => inl "unused")
          (inl "openai-key") (fun _ _ _ => inl ["unused"])
          (fun label => label) "list index out of range"
          true refuses_hash (fun _ _ => inl tt)
          "20260101_120000" "2026-01-01 12:00:00".

(* ================================================================== *)
(** * Properties *)

(** ** Strings *)

Module PyStrFacts.
Import PyStr.







End PyStrFacts.

(** ** The unavailability signature *)



(** ** The two provider attempts *)

Ltac unfold_script :=
  unfold bind, call, ret, raise, emit, read, try_except in *.

(** Case analysis on what the database answers to line 64. *)
Ltac case_database w :=
  match goal with
  | |- context [db_child w ?path] => destruct (db_child w path) as [[]|?]
  end;
  [ match goal with
    | |- context [db_set w ?path ?payload] =>
        destruct (db_set w path payload) as [[]|?]
    end | ].

(** Case analysis on whatever the script is branching on. *)
Ltac case_scrutinee :=
  match goal with
  | |- context [match ?x with inl _ => _ | inr _ => _ end] => destruct x
  | |- context [match ?x with Some _ => _ | None => _ end] => destruct x
  | |- context [match ?x with nil => _ | cons _ _ => _ end] => destruct x
  | |- context [if ?b then _ else _] => destruct b
  end.

(** The primary attempt leaves the session alone, calls the secondary
    provider never, and ends with a text or an [Exception]. *)
Lemma gemini_attempt_outcome w label h sys s :
  exists tr,
    secondary_calls tr = 0 /\
    ((exists text, gemini_attempt w label h sys s = (s, tr, Ok text)) \/
     (exists d, gemini_attempt w label h sys s = (s, tr, Raise (PyException d)))).
Proof.
  unfold gemini_attempt; unfold_script.
  generalize (dict_get MODEL_MAPPING label); intros lookup.
  destruct (genai_client w) as [key|d].
  2:{ exists []. split; [reflexivity | right; eexists; reflexivity]. }
  destruct lookup as [id|].
  2:{ exists []. split; [reflexivity | right; eexists; reflexivity]. }
  destruct (generate_content w key id (api_contents h) sys) as [text|d];
    eexists; (split; [| first [ left; eexists; reflexivity
                              | right; eexists; reflexivity ] ]);
    reflexivity.
Qed.

Lemma openai_attempt_outcome w h sys s :
  exists tr,
    (exists text, openai_attempt w h sys s = (s, tr, Ok text)) \/
    (exists d, openai_attempt w h sys s = (s, tr, Raise (PyException d))).
Proof.
  unfold openai_attempt; unfold_script.
  destruct (openai_client w) as [key|d]; simpl; [|eauto].
  destruct (chat_completions_create w key "gpt-5.2" (oa_messages sys h))
    as [[|c cs]|d]; simpl; eauto.
Qed.

(** Shape of the answer on each of the four paths. *)
Lemma get_ai_response_primary_ok w label h sys s tr text :
  gemini_attempt w label h sys s = (s, tr, Ok text) ->
  get_ai_response w label h sys s = (s, tr, Ok text).
Proof. intros H. unfold get_ai_response, try_except. now rewrite H. Qed.

Lemma get_ai_response_other_failure w label h sys s tr d :
  gemini_attempt w label h sys s = (s, tr, Raise (PyException d)) ->
  is_unavailable d = false ->
  get_ai_response w label h sys s = (s, (tr ++ [])%list, Ok ("Error: " ++ d)).
Proof.
  intros H U. unfold get_ai_response, try_except. rewrite H, U. reflexivity.
Qed.

Lemma get_ai_response_fallback_ok w label h sys s tr tr2 d text :
  gemini_attempt w label h sys s = (s, tr, Raise (PyException d)) ->
  is_unavailable d = true ->
  openai_attempt w h sys s = (s, tr2, Ok text) ->
  get_ai_response w label h sys s
  = (s, (tr ++ fallback_warning :: tr2)%list, Ok text).
Proof.
  intros H U H2. unfold get_ai_response, try_except at 1. rewrite H, U.
  unfold_script. rewrite H2. reflexivity.
Qed.

Lemma get_ai_response_both_fail w label h sys s tr tr2 d d2 :
  gemini_attempt w label h sys s = (s, tr, Raise (PyException d)) ->
  is_unavailable d = true ->
  openai_attempt w h sys s = (s, tr2, Raise (PyException d2)) ->
  get_ai_response w label h sys s
  = (s, (tr ++ fallback_warning :: (tr2 ++ []))%list,
     Ok ("Both models failed. Gemini Error: " ++ d
         ++ " | OpenAI Error: " ++ d2)).
Proof.
  intros H U H2. unfold get_ai_response, try_except at 1. rewrite H, U.
  unfold_script. rewrite H2. reflexivity.
Qed.

(** [get_ai_response] always ends with a text, and never touches the
    session state. *)
Lemma get_ai_response_returns w label h sys s :
  exists tr text, get_ai_response w label h sys s = (s, tr, Ok text).
Proof.
  destruct (gemini_attempt_outcome w label h sys s)
    as (tr & _ & [[text H] | [d H]]).
  - eauto using get_ai_response_primary_ok.
  - destruct (is_unavailable d) eqn:U.
    + destruct (openai_attempt_outcome w h sys s) as (tr2 & [[t H2]|[d2 H2]]).
      * eauto using get_ai_response_fallback_ok.
      * eauto using get_ai_response_both_fail.
    + eauto using get_ai_response_other_failure.
Qed.

(* ================================================================== *)
(** ** Response generator: the four paths *)

Module Generator.

(** C3: for a label of [MODEL_MAPPING], when the primary provider call
    succeeds, [get_ai_response] returns the primary provider's text as it
    is and makes no call to the secondary provider. *)
Theorem primary_success_returns_verbatim
        (w : World) (label : string) (h : list Message) (sys : string)
        (s : Session) (key id text : string) :
  In label (map fst MODEL_MAPPING) ->
  genai_client w = inl key ->
  dict_get MODEL_MAPPING label = Some id ->
  generate_content w key id (api_contents h) sys = inl text ->
  result_of (get_ai_response w label h sys s) = Ok text /\
  secondary_calls (events_of (get_ai_response w label h sys s)) = 0 /\
  primary_calls (events_of (get_ai_response w label h sys s)) = 1 /\
  session_of (get_ai_response w label h sys s) = s.
Proof.
  intros _ Hclient Hid Hgen.
  assert (E : gemini_attempt w label h sys s
              = (s, [EvGenerateContent key id (api_contents h) sys], Ok text)).
  { unfold gemini_attempt; unfold_script.
    rewrite Hclient, Hid, Hgen. reflexivity. }
  rewrite (get_ai_response_primary_ok _ _ _ _ _ _ _ E).
  repeat split.
Qed.

Lemma primary_success_returns_verbatim_witness :
  let w := world_primary (inl "Revenue equals cost.") (inl ["unused"]) in
  let out := get_ai_response w "ChatGPT 5.2" sample_history
                             "Business Planning Assistant" initial_session in
  result_of out = Ok "Revenue equals cost." /\
  secondary_calls (events_of out) = 0 /\
  primary_calls (events_of out) = 1 /\
  session_of out = initial_session.
Proof.
  apply (primary_success_returns_verbatim
           (world_primary (inl "Revenue equals cost.") (inl ["unused"]))
           "ChatGPT 5.2" sample_history "Business Planning Assistant"
           initial_session "google-key" "gpt-5.2-thinking").
  - simpl. right. left. reflexivity.
  - reflexivity.
  - reflexivity.
  - reflexivity.
Defined.







End Generator.

(* ================================================================== *)
(** ** Response generator: a response without text *)

Module Unchecked.

(** On responses that all carry their text, the function is
    [get_ai_response] as embedded above. *)
Lemma get_ai_response_unchecked_with_text w label h sys s :
  get_ai_response_unchecked w (responses_with_text w) label h sys s
  = as_value (get_ai_response w label h sys s).
Proof.
  unfold get_ai_response_unchecked, gemini_attempt_unchecked,
    openai_attempt_unchecked, get_ai_response, gemini_attempt,
    openai_attempt, responses_with_text, as_value; unfold_script.
  cbn [response_text choice_contents].
  generalize (dict_get MODEL_MAPPING label); intros lookup.
  destruct (genai_client w) as [key|d]; [destruct lookup as [id|]|].
  1: destruct (generate_content w key id (api_contents h) sys) as [t|d];
    [reflexivity|].
  all: match goal with |- context [is_unavailable ?x] =>
         destruct (is_unavailable x) end; try reflexivity.
  all: destruct (openai_client w) as [key2|d2]; try reflexivity.
  all: destruct (chat_completions_create w key2 "gpt-5.2" (oa_messages sys h))
      as [[|c cs]|d3]; reflexivity.
Qed.

(** No exception leaves the function, whatever the responses carry. *)
Lemma get_ai_response_unchecked_returns w r label h sys s :
  exists tr value,
    get_ai_response_unchecked w r label h sys s = (s, tr, Ok value).
Proof.
  unfold get_ai_response_unchecked, gemini_attempt_unchecked,
    openai_attempt_unchecked; unfold_script.
  generalize (dict_get MODEL_MAPPING label); intros lookup.
  repeat case_scrutinee; do 2 eexists; reflexivity.
Qed.

(** What comes back is a text on every failure path; [None] comes back
    only as the text of a response that succeeded. *)
Lemma get_ai_response_unchecked_none w r label h sys s :
  result_of (get_ai_response_unchecked w r label h sys s) = Ok None ->
  (exists key model,
      response_text r key model (api_contents h) sys = inl None) \/
  (exists key more,
      choice_contents r key "gpt-5.2" (oa_messages sys h)
      = inl (None :: more)).
Proof.
  unfold get_ai_response_unchecked, gemini_attempt_unchecked,
    openai_attempt_unchecked; unfold_script.
  generalize (dict_get MODEL_MAPPING label); intros lookup.
  destruct (genai_client w) as [key|d]; [destruct lookup as [id|]|].
  1: destruct (response_text r key id (api_contents h) sys) as [[t|]|d] eqn:R;
    [discriminate | intros _; left; now exists key, id |].
  all: match goal with |- context [is_unavailable ?x] =>
         destruct (is_unavailable x) end; try discriminate.
  all: destruct (openai_client w) as [key2|d2]; try discriminate.
  all: destruct (choice_contents r key2 "gpt-5.2" (oa_messages sys h))
      as [[|[c|] cs]|d3] eqn:C; try discriminate.
  all: intros _; right; now exists key2, cs.
Qed.

(** C7 (the input on which the code departs from it): Gemini answers the
    first question with a response that has no text part.  No exception
    leaves [get_ai_response], but what it returns is [None], not a text;
    and so it is when Gemini is unavailable and the first choice of the
    OpenAI fallback has no content. *)
Theorem response_without_text_is_returned_as_none :
  get_ai_response_unchecked answering_world responses_without_text
                            "gemini-3-pro-preview" sample_history
                            "Business Planning Assistant" initial_session
  = (initial_session,
     [ EvGenerateContent "google-key" "gemini-3-pro-preview"
         [ mkContent "user" ["What is a break-even point?"] ]
         "Business Planning Assistant" ],
     Ok None) /\
  result_of (get_ai_response_unchecked
               answering_world fallback_without_content
               "gemini-3-pro-preview" sample_history
               "Business Planning Assistant" initial_session)
  = Ok None.
Proof. split; reflexivity. Qed.

End Unchecked.

(* ================================================================== *)
(** ** Logger and trace facts *)

Lemma log_calls_app (t1 t2 : list Event) :
  log_calls (t1 ++ t2)%list = (log_calls t1 ++ log_calls t2)%list.
Proof.
  induction t1 as [|e t1 IH]; [reflexivity|].
  destruct e; simpl; rewrite IH; reflexivity.
Qed.

(** [save_to_firebase] returns whatever the database does, leaves the
    session alone, and shows in the trace as one logger call. *)
Lemma save_to_firebase_outcome w user label p r kind s :
  exists tr res,
    save_to_firebase w user label p r kind s
    = (s, EvSaveToFirebase (mkLogCall user label p r kind) :: tr, Ok res)
    /\ log_calls tr = [] /\ Forall logger_event tr.
Proof.
  unfold save_to_firebase; unfold_script.
  destruct (db_ref w);
    [|exists [], None; repeat split; constructor].
  case_database w;
    do 2 eexists; (split; [reflexivity|]); split;
    solve [reflexivity | repeat constructor].
Qed.

(** The generator makes no logger call, and its answer does not depend on
    the session state. *)
Lemma get_ai_response_quiet w label h sys s :
  exists tr text,
    get_ai_response w label h sys s = (s, tr, Ok text) /\ log_calls tr = []
    /\ Forall (generator_event sys h) tr.
Proof.
  unfold get_ai_response, gemini_attempt, openai_attempt; unfold_script.
  generalize (dict_get MODEL_MAPPING label); intros lookup.
  repeat case_scrutinee; do 2 eexists; (split; [reflexivity|]); split;
    solve [reflexivity | repeat constructor].
Qed.

Lemma get_ai_response_session_irrelevant w label h sys s s' :
  events_of (get_ai_response w label h sys s)
  = events_of (get_ai_response w label h sys s') /\
  result_of (get_ai_response w label h sys s)
  = result_of (get_ai_response w label h sys s').
Proof.
  unfold get_ai_response, gemini_attempt, openai_attempt; unfold_script.
  generalize (dict_get MODEL_MAPPING label); intros lookup.
  repeat case_scrutinee; split; reflexivity.
Qed.

(** ** Stepping through a script *)

Lemma bind_ok {A B} (m : M A) (f : A -> M B) s s1 t1 a s2 t2 r :
  m s = (s1, t1, Ok a) ->
  f a s1 = (s2, t2, r) ->
  bind m f s = (s2, (t1 ++ t2)%list, r).
Proof. intros H1 H2. unfold bind. now rewrite H1, H2. Qed.

Lemma bind_raise {A B} (m : M A) (f : A -> M B) s s1 t1 e :
  m s = (s1, t1, Raise e) ->
  bind m f s = (s1, t1, Raise e).
Proof. intros H1. unfold bind. now rewrite H1. Qed.

(** ** Python's negative indices *)

Lemma two_last {A} (l : list A) :
  2 <= List.length l -> exists front a b, l = (front ++ [a; b])%list.
Proof.
  intros H.
  destruct (exists_last (l := l)) as (l1 & b & ->).
  { intros ->. simpl in H. lia. }
  rewrite length_app in H. simpl in H.
  destruct (exists_last (l := l1)) as (front & a & ->).
  { intros ->. simpl in H. lia. }
  exists front, a, b. now rewrite <- app_assoc.
Qed.

Lemma index_from_end_2 {A} w (front : list A) a b s :
  index_from_end w (front ++ [a; b])%list 2 s = (s, [], Ok a).
Proof.
  unfold index_from_end. rewrite length_app. cbn [List.length].
  replace (List.length front + 2 <? 2)%nat with false
    by (symmetry; apply Nat.ltb_ge; lia).
  replace (List.length front + 2 - 2) with (List.length front) by lia.
  rewrite nth_error_app2 by lia. rewrite Nat.sub_diag. reflexivity.
Qed.

Lemma index_from_end_1 {A} w (front : list A) a b s :
  index_from_end w (front ++ [a; b])%list 1 s = (s, [], Ok b).
Proof.
  unfold index_from_end. rewrite length_app. cbn [List.length].
  replace (List.length front + 2 <? 1)%nat with false
    by (symmetry; apply Nat.ltb_ge; lia).
  replace (List.length front + 2 - 1) with (S (List.length front)) by lia.
  rewrite nth_error_app2 by lia.
  replace (S (List.length front) - List.length front) with 1 by lia.
  reflexivity.
Qed.

Lemma index_from_end_short {A} w (l : list A) k s :
  List.length l < k ->
  index_from_end w l k s = (s, [], Raise (PyException (index_error_text w))).
Proof.
  intros H. unfold index_from_end.
  destruct (Nat.ltb_spec (List.length l) k); [reflexivity | lia].
Qed.

(** ** Roles and the OpenAI translation *)

Lemma program_role_not_remapped (m : Message) :
  program_role m -> remapped m = false /\ oa_role m = role m.
Proof.
  unfold program_role, remapped, oa_role.
  intros [H | H]; rewrite H; split; reflexivity.
Qed.

Lemma roles_ok_identity (sys : string) (h : list Message) :
  roles_ok h ->
  remap_count h = 0 /\
  map oa_role h = map role h /\
  oa_messages sys h = mkMessage "system" sys :: h.
Proof.
  unfold roles_ok, remap_count, oa_messages.
  induction 1 as [|m h Hm Hh (IH1 & IH2 & IH3)]; [repeat split|].
  destruct (program_role_not_remapped m Hm) as [R O].
  cbn [filter map]. rewrite R, O, IH2. repeat split; [exact IH1|].
  injection IH3 as IH3. rewrite IH3. destruct m; reflexivity.
Qed.

Lemma roles_ok_app (h1 h2 : list Message) :
  roles_ok h1 -> roles_ok h2 -> roles_ok (h1 ++ h2)%list.
Proof. unfold roles_ok. intros. apply Forall_app. now split. Qed.

Lemma roles_ok_user (text : string) : roles_ok [mkMessage "user" text].
Proof. repeat constructor. Qed.

Lemma roles_ok_assistant (text : string) :
  roles_ok [mkMessage "assistant" text].
Proof. constructor; [right; reflexivity | constructor]. Qed.

Lemma logger_event_identity (e : Event) :
  logger_event e -> secondary_call_identity e.
Proof. destruct e; simpl; tauto. Qed.

Lemma generator_event_identity (sys : string) (h : list Message) (e : Event) :
  roles_ok h -> generator_event sys h e -> secondary_call_identity e.
Proof.
  intros Hh. destruct e; simpl; try tauto.
  intros [_ ->]. destruct (roles_ok_identity sys h Hh) as (R & _ & I).
  exists sys, h. auto.
Qed.

Lemma logger_events_identity (tr : list Event) :
  Forall logger_event tr -> Forall secondary_call_identity tr.
Proof. apply Forall_impl, logger_event_identity. Qed.

Lemma generator_events_identity sys h (tr : list Event) :
  roles_ok h ->
  Forall (generator_event sys h) tr -> Forall secondary_call_identity tr.
Proof. intros Hh. apply Forall_impl. intros e. now apply generator_event_identity. Qed.

(* ================================================================== *)
(** ** Feedback controller *)

Module Feedback.

Lemma handle_feedback_understood w wd s front a b :
  messages s = (front ++ [a; b])%list ->
  exists tr,
    handle_feedback w wd true s
    = (mkSession (messages s) false (authenticated s) (current_user s),
       tr, Ok tt)
    /\ log_calls tr = [feedback_event_call wd s (content b) true]
    /\ Forall secondary_call_identity tr.
Proof.
  intros Hm.
  destruct (save_to_firebase_outcome
              w (current_user s) (selected_label wd) (content b)
              "UNDERSTOOD_FEEDBACK" "FEEDBACK_EVENT" s)
    as (tr & res & E & Hq & Hev).
  eexists. split; [|split].
  - unfold handle_feedback.
    eapply bind_ok; [reflexivity|]. rewrite Hm.
    eapply bind_ok; [apply index_from_end_2|].
    eapply bind_ok; [apply index_from_end_1|].
    eapply bind_ok; [reflexivity|].
    eapply bind_ok; [exact E|].
    cbn [negb]. rewrite <- Hm. reflexivity.
  - simpl. rewrite app_nil_r, Hq. reflexivity.
  - simpl. rewrite app_nil_r.
    constructor; [exact I | now apply logger_events_identity].
Qed.

Lemma append_message_eq m s :
  append_message m s
  = (mkSession (messages s ++ [m])%list (feedback_pending s)
               (authenticated s) (current_user s), [], Ok tt).
Proof. reflexivity. Qed.

Lemma handle_feedback_clarify w wd s front a b :
  messages s = (front ++ [a; b])%list ->
  let request := clarification_prompt_of (content b) in
  let history := (messages s ++ [mkMessage "user" request])%list in
  exists tr reply,
    result_of (get_ai_response w (selected_label wd) history
                               (system_instruction_input wd) s) = Ok reply
    /\ handle_feedback w wd false s
       = (mkSession (history ++ [mkMessage "assistant" reply])%list true
                    (authenticated s) (current_user s),
          tr, Ok tt)
    /\ log_calls tr
       = [ feedback_event_call wd s (content b) false;
           mkLogCall (current_user s) (selected_label wd) request reply
                     "CLARIFICATION_RESPONSE" ]
    /\ (roles_ok (messages s) -> Forall secondary_call_identity tr).
Proof.
  intros Hm request history.
  set (s1 := mkSession history (feedback_pending s) (authenticated s)
                       (current_user s)).
  destruct (save_to_firebase_outcome
              w (current_user s) (selected_label wd) (content b)
              "CLARIFICATION_REQUESTED" "FEEDBACK_EVENT" s)
    as (tr1 & res1 & E1 & Hq1 & Hev1).
  destruct (get_ai_response_quiet w (selected_label wd) history
                                  (system_instruction_input wd) s1)
    as (trg & reply & Eg & Hqg & Hevg).
  destruct (save_to_firebase_outcome
              w (current_user s) (selected_label wd) request reply
              "CLARIFICATION_RESPONSE" s1)
    as (tr2 & res2 & E2 & Hq2 & Hev2).
  eexists. exists reply. split; [|split; [|split]].
  - destruct (get_ai_response_session_irrelevant
                w (selected_label wd) history (system_instruction_input wd)
                s s1) as [_ ->].
    now rewrite Eg.
  - unfold handle_feedback.
    eapply bind_ok; [reflexivity|]. rewrite Hm.
    eapply bind_ok; [apply index_from_end_2|].
    eapply bind_ok; [apply index_from_end_1|].
    eapply bind_ok; [reflexivity|].
    eapply bind_ok; [exact E1|].
    cbn [negb].
    eapply bind_ok; [apply append_message_eq|]. fold request history s1.
    eapply bind_ok; [reflexivity|].
    eapply bind_ok; [exact Eg|].
    eapply bind_ok; [reflexivity|].
    eapply bind_ok; [exact E2|].
    eapply bind_ok; [apply append_message_eq|].
    reflexivity.
  - simpl. rewrite !log_calls_app. simpl. rewrite Hq1, Hqg, !log_calls_app.
    simpl. rewrite Hq2. reflexivity.
  - intros Hr.
    assert (Hh : roles_ok history)
      by (apply roles_ok_app; [exact Hr | apply roles_ok_user]).
    apply logger_events_identity in Hev1, Hev2.
    apply (generator_events_identity _ _ _ Hh) in Hevg.
    repeat first [ assumption
                 | apply Forall_nil
                 | apply Forall_cons; [exact I|]
                 | apply Forall_app; split ].
Qed.

Lemma last_two {A} (front : list A) a b d :
  List.last (front ++ [a; b])%list d = b.
Proof.
  change (front ++ [a; b])%list with (front ++ [a] ++ [b])%list.
  rewrite app_assoc. apply last_last.
Qed.

(** C1 (as the code has it): in a PENDING session with at least two
    turns, [handle_feedback(True)] returns, leaves the turns as they are,
    sets [feedback_pending] to [False] and calls the logger exactly once;
    that call has interaction type FEEDBACK_EVENT, carries
    UNDERSTOOD_FEEDBACK in its response argument and the last reply in
    its prompt argument. *)
Theorem understood_opens_gate_logs_feedback_event
        (w : World) (wd : Widgets) (s : Session) :
  feedback_pending s = true ->
  2 <= List.length (messages s) ->
  understood_resolution w wd s "FEEDBACK_EVENT" /\
  messages (session_of (handle_feedback w wd true s)) = messages s /\
  log_calls (events_of (handle_feedback w wd true s))
  = [ mkLogCall (current_user s) (selected_label wd)
                (content (List.last (messages s) (mkMessage "" "")))
                "UNDERSTOOD_FEEDBACK" "FEEDBACK_EVENT" ].
Proof.
  intros _ Hlen.
  destruct (two_last _ Hlen) as (front & a & b & Hm).
  destruct (handle_feedback_understood w wd s front a b Hm)
  as (tr & E & Hq & _).
  unfold understood_resolution. rewrite E.
  unfold result_of, session_of, events_of; simpl.
  rewrite Hq, Hm, last_two. unfold feedback_event_call.
  repeat split. eexists. split; reflexivity.
Qed.

Lemma understood_opens_gate_logs_feedback_event_witness :
  understood_resolution answering_world default_widgets pending_session
                        "FEEDBACK_EVENT" /\
  messages (session_of (handle_feedback answering_world default_widgets
                                        true pending_session))
  = messages pending_session /\
  log_calls (events_of (handle_feedback answering_world default_widgets
                                        true pending_session))
  = [ mkLogCall (Some "Thunder") "gemini-3-pro-preview"
                "Revenue equals cost." "UNDERSTOOD_FEEDBACK"
                "FEEDBACK_EVENT" ].
Proof.
  apply (understood_opens_gate_logs_feedback_event
           answering_world default_widgets pending_session).
  - reflexivity.
  - simpl. lia.
Defined.

(** C1 as worded fails: on [pending_session] the single logger call of
    [handle_feedback(True)] does not have interaction type
    UNDERSTOOD_FEEDBACK. *)
Lemma understood_kind_is_not_understood_feedback :
  feedback_pending pending_session = true /\
  2 <= List.length (messages pending_session) /\
  ~ understood_resolution answering_world default_widgets pending_session
                          "UNDERSTOOD_FEEDBACK".
Proof.
  split; [reflexivity|]. split; [simpl; lia|].
  intros (_ & _ & c & Hc & Hk).
  vm_compute in Hc. injection Hc as <-. discriminate Hk.
Qed.

(** C2 (as the code has it): in a PENDING session with at least two
    turns, [handle_feedback(False)] returns and leaves [feedback_pending]
    set; it appends exactly two turns, the user-role clarification request
    built from the last reply and then the assistant-role answer of
    [get_ai_response] to the extended history; and it calls the logger
    exactly twice, first with interaction type FEEDBACK_EVENT (response
    argument CLARIFICATION_REQUESTED), then with interaction type
    CLARIFICATION_RESPONSE. *)
Theorem clarification_appends_two_turns_logs_twice
        (w : World) (wd : Widgets) (s : Session) :
  feedback_pending s = true ->
  2 <= List.length (messages s) ->
  clarification_resolution w wd s "FEEDBACK_EVENT" "CLARIFICATION_RESPONSE"
  /\
  let last_ai_reply := content (List.last (messages s) (mkMessage "" "")) in
  let request := clarification_prompt_of last_ai_reply in
  let history := (messages s ++ [mkMessage "user" request])%list in
  exists reply,
    result_of (get_ai_response w (selected_label wd) history
                               (system_instruction_input wd) s) = Ok reply
    /\ messages (session_of (handle_feedback w wd false s))
       = (history ++ [mkMessage "assistant" reply])%list
    /\ log_calls (events_of (handle_feedback w wd false s))
       = [ mkLogCall (current_user s) (selected_label wd) last_ai_reply
                     "CLARIFICATION_REQUESTED" "FEEDBACK_EVENT";
           mkLogCall (current_user s) (selected_label wd) request reply
                     "CLARIFICATION_RESPONSE" ].
Proof.
  intros _ Hlen.
  destruct (two_last _ Hlen) as (front & a & b & Hm).
  destruct (handle_feedback_clarify w wd s front a b Hm)
    as (tr & reply & Hg & E & Hq & _).
  unfold clarification_resolution. rewrite E.
  unfold result_of, session_of, events_of in *; simpl.
  rewrite Hq. unfold feedback_event_call.
  replace (List.last (messages s) (mkMessage "" "")) with b
    by (rewrite Hm; symmetry; apply last_two).
  split.
  - repeat split.
    + exists (clarification_prompt_of (content b)), reply.
      now rewrite <- app_assoc.
    + do 2 eexists. repeat split.
  - exists reply. repeat split. exact Hg.
Qed.

Lemma clarification_appends_two_turns_logs_twice_witness :
  clarification_resolution answering_world default_widgets pending_session
                           "FEEDBACK_EVENT" "CLARIFICATION_RESPONSE"
  /\
  let last_ai_reply :=
    content (List.last (messages pending_session) (mkMessage "" "")) in
  let request := clarification_prompt_of last_ai_reply in
  let history := (messages pending_session
                  ++ [mkMessage "user" request])%list in
  exists reply,
    result_of (get_ai_response answering_world
                               (selected_label default_widgets) history
                               (system_instruction_input default_widgets)
                               pending_session) = Ok reply
    /\ messages (session_of (handle_feedback answering_world
                                             default_widgets false
                                             pending_session))
       = (history ++ [mkMessage "assistant" reply])%list
    /\ log_calls (events_of (handle_feedback answering_world
                                             default_widgets false
                                             pending_session))
       = [ mkLogCall (current_user pending_session)
                     (selected_label default_widgets) last_ai_reply
                     "CLARIFICATION_REQUESTED" "FEEDBACK_EVENT";
           mkLogCall (current_user pending_session)
                     (selected_label default_widgets) request reply
                     "CLARIFICATION_RESPONSE" ].
Proof.
  apply (clarification_appends_two_turns_logs_twice
           answering_world default_widgets pending_session).
  - reflexivity.
  - simpl. lia.
Defined.

(** The run of [handle_feedback(False)] on [pending_session], in full. *)
Example clarification_on_pending_session :
  handle_feedback answering_world default_widgets false pending_session
  = (mkSession
       [ mkMessage "user" "What is a break-even point?";
         mkMessage "assistant" "Revenue equals cost.";
         mkMessage "user" "I don't understand the previous explanation: 'Revenue equals cost.'. Please break it down further.";
         mkMessage "assistant" "Break it into fixed and variable costs." ]
       true true (Some "Thunder"),
     [ EvSaveToFirebase
         (mkLogCall (Some "Thunder") "gemini-3-pro-preview"
                    "Revenue equals cost." "CLARIFICATION_REQUESTED"
                    "FEEDBACK_EVENT");
       EvDbSet [ "logs"; "Thunder"; "20260101_120000" ]
               (mkLogPayload "gemini-3-pro-preview" "Revenue equals cost."
                             "CLARIFICATION_REQUESTED" "FEEDBACK_EVENT"
                             "2026-01-01 12:00:00");
       EvGenerateContent
         "google-key" "gemini-3-pro-preview"
         [ mkContent "user" ["What is a break-even point?"];
           mkContent "model" ["Revenue equals cost."];
           mkContent "user" ["I don't understand the previous explanation: 'Revenue equals cost.'. Please break it down further."] ]
         "Business Planning Assistant";
       EvSaveToFirebase
         (mkLogCall (Some "Thunder") "gemini-3-pro-preview"
                    "I don't understand the previous explanation: 'Revenue equals cost.'. Please break it down further."
                    "Break it into fixed and variable costs."
                    "CLARIFICATION_RESPONSE");
       EvDbSet [ "logs"; "Thunder"; "20260101_120000" ]
               (mkLogPayload "gemini-3-pro-preview"
                             "I don't understand the previous explanation: 'Revenue equals cost.'. Please break it down further."
                             "Break it into fixed and variable costs."
                             "CLARIFICATION_RESPONSE"
                             "2026-01-01 12:00:00") ],
     Ok tt).
Proof. vm_compute. reflexivity. Qed.

(** C2 as worded fails: on [pending_session] the first of the two logger
    calls of [handle_feedback(False)] does not have interaction type
    CLARIFICATION_REQUESTED. *)
Lemma clarification_first_kind_is_not_clarification_requested :
  feedback_pending pending_session = true /\
  2 <= List.length (messages pending_session) /\
  ~ clarification_resolution answering_world default_widgets pending_session
                             "CLARIFICATION_REQUESTED"
                             "CLARIFICATION_RESPONSE".
Proof.
  split; [reflexivity|]. split; [simpl; lia|].
  intros (_ & _ & _ & c1 & c2 & Hc & Hk & _).
  vm_compute in Hc. injection Hc as <- <-. discriminate Hk.
Qed.

End Feedback.

(* ================================================================== *)
(** ** The script as a transition system *)

Module Script.

(** Prove [run = (s', tr, r)] by computing the trace first and comparing
    it with [tr] afterwards. *)
Ltac loosen_trace :=
  match goal with
  | |- ?lhs = (?a, ?t, ?r) =>
      let H := fresh in
      enough (H : exists t', lhs = (a, t', r) /\ t' = t)
        by (destruct H as (? & -> & ->); reflexivity);
      eexists; split
  end.

Ltac solve_events :=
  repeat first [ assumption
               | apply Forall_nil
               | apply Forall_cons; [exact I|]
               | apply Forall_app; split ].

(** A run that no widget triggered, or that a feedback button triggered,
    goes through the script body without touching the session. *)
Lemma script_body_passive w wd inp s :
  match inp with NoInput | ClickFeedback _ => True | _ => False end ->
  exists tr,
    script_body w wd inp s = (s, tr, Ok tt)
    /\ Forall secondary_call_identity tr.
Proof.
  destruct s as [msgs p a u].
  destruct inp; try contradiction; intros _;
    destruct a, p; eexists; (split; [reflexivity | solve_events]).
Qed.

Lemma on_click_callback_idle w wd inp s :
  match inp with
  | ClickFeedback _ => authenticated s && feedback_pending s = false
  | _ => True
  end ->
  on_click_callback w wd inp s = (s, [], Ok tt).
Proof.
  unfold on_click_callback; unfold_script.
  destruct inp; try reflexivity. intros ->. reflexivity.
Qed.

Lemma script_run_passive w wd s :
  exists tr,
    script_run w wd NoInput s = (s, tr, Ok tt)
    /\ Forall secondary_call_identity tr.
Proof.
  destruct (script_body_passive w wd NoInput s I) as (tr & E & Hev).
  exists tr. split; [|exact Hev].
  unfold script_run.
  rewrite (bind_ok _ _ s s [] tt s tr (Ok tt));
    [reflexivity | now apply on_click_callback_idle | exact E].
Qed.

(** Lines 238-268: a submitted prompt adds the user turn and the answer,
    logs one INITIAL_QUERY call, closes the gate and asks for a rerun. *)
Lemma submit_prompt_eq w wd text s :
  exists tr reply,
    submit_prompt w wd text s
    = (mkSession (messages s ++ [ mkMessage "user" text;
                                  mkMessage "assistant" reply ])%list
                 true (authenticated s) (current_user s),
       tr, Raise RerunException)
    /\ log_calls tr
       = [ mkLogCall (current_user s) (selected_label wd) text reply
                     "INITIAL_QUERY" ]
    /\ (roles_ok (messages s) -> Forall secondary_call_identity tr).
Proof.
  set (history := (messages s ++ [mkMessage "user" text])%list).
  set (s1 := mkSession history (feedback_pending s) (authenticated s)
                       (current_user s)).
  destruct (get_ai_response_quiet w (selected_label wd) history
                                  (system_instruction_input wd) s1)
    as (trg & reply & Eg & Hqg & Hevg).
  destruct (save_to_firebase_outcome
              w (current_user s) (selected_label wd) text reply
              "INITIAL_QUERY" s1)
    as (tr2 & res2 & E2 & Hq2 & Hev2).
  eexists. exists reply. split; [|split].
  - unfold submit_prompt.
    eapply bind_ok; [apply Feedback.append_message_eq|]. fold history s1.
    eapply bind_ok; [reflexivity|].
    eapply bind_ok; [exact Eg|].
    eapply bind_ok; [reflexivity|].
    eapply bind_ok; [exact E2|].
    eapply bind_ok; [apply Feedback.append_message_eq|].
    eapply bind_ok; [reflexivity|].
    unfold s1, history; cbn. rewrite <- app_assoc. reflexivity.
  - simpl. rewrite !log_calls_app, Hqg. simpl. rewrite !log_calls_app, Hq2.
    reflexivity.
  - intros Hr.
    assert (Hh : roles_ok history)
      by (apply roles_ok_app; [exact Hr | apply roles_ok_user]).
    apply logger_events_identity in Hev2.
    apply (generator_events_identity _ _ _ Hh) in Hevg.
    solve_events.
Qed.

(** With fewer than two turns [handle_feedback] stops at line 137 with an
    [IndexError], before any logging and any change. *)
Lemma handle_feedback_short w wd understood s :
  List.length (messages s) < 2 ->
  handle_feedback w wd understood s
  = (s, [], Raise (PyException (index_error_text w))).
Proof.
  intros H. unfold handle_feedback.
  rewrite (bind_ok _ _ s s [] (messages s) s []
                   (Raise (PyException (index_error_text w))));
    [reflexivity | reflexivity |].
  apply bind_raise. now apply index_from_end_short.
Qed.

(** What [interaction] makes of one run of the script. *)
Lemma interaction_of_ok w wd inp s s1 t1 :
  script_run w wd inp s = (s1, t1, Ok tt) ->
  interaction w wd inp s = (s1, t1, Ok tt).
Proof. intros E. unfold interaction. now rewrite E. Qed.

Lemma interaction_of_exception w wd inp s s1 t1 d :
  script_run w wd inp s = (s1, t1, Raise (PyException d)) ->
  interaction w wd inp s = (s1, t1, Raise (PyException d)).
Proof. intros E. unfold interaction. now rewrite E. Qed.

Lemma interaction_of_rerun w wd inp s s1 t1 :
  script_run w wd inp s = (s1, t1, Raise RerunException) ->
  exists t2,
    interaction w wd inp s = (s1, (t1 ++ t2)%list, Ok tt)
    /\ Forall secondary_call_identity t2.
Proof.
  intros E. destruct (script_run_passive w wd s1) as (t2 & E2 & Hev).
  exists t2. split; [|exact Hev].
  unfold interaction. now rewrite E, E2.
Qed.

Lemma interaction_spec_unchanged w wd inp s tr r :
  interaction w wd inp s = (s, tr, r) ->
  Forall secondary_call_identity tr ->
  interaction_spec w wd inp s.
Proof.
  intros E Hev. exists s, tr, r. split; [exact E|].
  split; [constructor | intros _; exact Hev].
Qed.

Lemma interaction_no_input w wd s : interaction_spec w wd NoInput s.
Proof.
  destruct (script_run_passive w wd s) as (tr & E & Hev).
  eapply interaction_spec_unchanged; [|exact Hev].
  apply interaction_of_ok, E.
Qed.

Lemma interaction_login w wd u_id s : interaction_spec w wd (ClickLogin u_id) s.
Proof.
  destruct s as [msgs p a u].
  destruct a.
  - destruct p; (eapply interaction_spec_unchanged; [reflexivity|]);
      solve_events.
  - destruct (list_in u_id AUTHORIZED_STUDENT_IDS) eqn:L.
    + exists (mkSession msgs p true (Some u_id)).
      assert (E : script_run w wd (ClickLogin u_id) (mkSession msgs p false u)
                  = (mkSession msgs p true (Some u_id),
                     [EvSuccess "Welcome!"], Raise RerunException)).
      { unfold script_run, script_body, sidebar_account; unfold_script.
        cbn [on_click_callback authenticated negb]. rewrite L. reflexivity. }
      destruct (interaction_of_rerun _ _ _ _ _ _ E) as (t2 & E2 & Hev).
      do 2 eexists. split; [exact E2|]. split.
      * now apply effect_login.
      * intros _. solve_events.
    + assert (E : script_run w wd (ClickLogin u_id) (mkSession msgs p false u)
                  = (mkSession msgs p false u,
                     [ EvError "Invalid Student ID";
                       EvWarning "Please login with an authorized Student ID in the sidebar." ],
                     Ok tt)).
      { unfold script_run, script_body, sidebar_account; unfold_script.
        cbn [on_click_callback authenticated negb]. rewrite L. reflexivity. }
      eapply interaction_spec_unchanged;
        [apply interaction_of_ok, E | solve_events].
Qed.

Lemma interaction_logout w wd s : interaction_spec w wd ClickLogout s.
Proof.
  destruct s as [msgs p a u].
  destruct a.
  - exists initial_session. do 2 eexists. split; [reflexivity|].
    split; [now apply effect_logout | intros _; solve_events].
  - destruct p; (eapply interaction_spec_unchanged; [reflexivity|]);
      solve_events.
Qed.

Lemma interaction_clear_chat w wd s : interaction_spec w wd ClickClearChat s.
Proof.
  destruct s as [msgs p a u].
  destruct a.
  - exists (mkSession [] false true u). do 2 eexists. split; [reflexivity|].
    split; [now apply (effect_clear (mkSession msgs p true u))
           | intros _; solve_events].
  - destruct p; (eapply interaction_spec_unchanged; [reflexivity|]);
      solve_events.
Qed.

(** The script run that takes a prompt: authenticated, gate open, text not
    empty. *)
Lemma script_run_prompt w wd text msgs u :
  PyStr.truthy text = true ->
  let s := mkSession msgs false true u in
  exists tr reply,
    script_run w wd (SubmitPrompt text) s
    = (mkSession (msgs ++ [ mkMessage "user" text;
                            mkMessage "assistant" reply ])%list true true u,
       (EvChatHistory msgs
        :: EvChatInput "Ask your question here..." false :: tr)%list,
       Raise RerunException)
    /\ log_calls tr
       = [ mkLogCall u (selected_label wd) text reply "INITIAL_QUERY" ]
    /\ (roles_ok msgs -> Forall secondary_call_identity tr).
Proof.
  intros T s.
  destruct (submit_prompt_eq w wd text s) as (tr & reply & E & Hq & Hev).
  exists tr, reply. split; [|split; [exact Hq | exact Hev]].
  subst s. loosen_trace.
  - unfold script_run, script_body, main_area.
    eapply bind_ok; [reflexivity|].
    eapply bind_ok; [reflexivity|].
    eapply bind_ok; [reflexivity|].
    eapply bind_ok; [reflexivity|]. cbn [negb].
    eapply bind_ok; [reflexivity|].
    eapply bind_ok; [reflexivity|].
    eapply bind_ok; [reflexivity|].
    eapply bind_ok; [reflexivity|].
    apply bind_raise. cbn [chat_input feedback_pending]. rewrite T. exact E.
  - reflexivity.
Qed.

Lemma interaction_submit_prompt w wd text s :
  interaction_spec w wd (SubmitPrompt text) s.
Proof.
  destruct s as [msgs p a u].
  destruct a; [destruct p|].
  - eapply interaction_spec_unchanged; [reflexivity | solve_events].
  - destruct (PyStr.truthy text) eqn:T.
    + destruct (script_run_prompt w wd text msgs u T)
        as (tr & reply & E & _ & Hev).
      destruct (interaction_of_rerun _ _ _ _ _ _ E) as (t2 & E2 & Hev2).
      do 3 eexists. split; [exact E2|]. split.
      * now apply (effect_prompt (mkSession msgs false true u)).
      * intros Hr. specialize (Hev Hr). solve_events.
    + destruct text; [|discriminate T].
      eapply interaction_spec_unchanged; [reflexivity | solve_events].
  - destruct p; (eapply interaction_spec_unchanged; [reflexivity|]);
      solve_events.
Qed.

(** A run triggered by a feedback button: the callback, then the body. *)
Lemma script_run_feedback w wd understood s s1 t1 :
  authenticated s = true ->
  feedback_pending s = true ->
  handle_feedback w wd understood s = (s1, t1, Ok tt) ->
  exists t2,
    script_run w wd (ClickFeedback understood) s
    = (s1, (t1 ++ t2)%list, Ok tt)
    /\ Forall secondary_call_identity t2.
Proof.
  intros A P E.
  destruct (script_body_passive w wd (ClickFeedback understood) s1 I)
    as (t2 & E2 & Hev).
  exists t2. split; [|exact Hev].
  unfold script_run. eapply bind_ok; [|exact E2].
  unfold on_click_callback, bind, read. rewrite A, P. cbn [andb].
  rewrite E. reflexivity.
Qed.

Lemma interaction_feedback w wd understood s :
  interaction_spec w wd (ClickFeedback understood) s.
Proof.
  destruct (authenticated s && feedback_pending s) eqn:G.
  - apply andb_true_iff in G. destruct G as [A P].
    destruct (Nat.lt_ge_cases (List.length (messages s)) 2) as [Short | Long].
    + eapply (interaction_spec_unchanged _ _ _ _ []); [|constructor].
      apply interaction_of_exception.
      unfold script_run. apply bind_raise.
      unfold on_click_callback, bind, read. rewrite A, P. cbn [andb].
      rewrite (handle_feedback_short _ _ _ _ Short). reflexivity.
    + destruct (two_last _ Long) as (front & a & b & Hm).
      destruct understood.
      * destruct (Feedback.handle_feedback_understood w wd s front a b Hm)
          as (tr & E & _ & Hev).
        destruct (script_run_feedback _ _ _ _ _ _ A P E) as (t2 & E2 & Hev2).
        do 3 eexists. split; [apply interaction_of_ok, E2|]. split.
        -- rewrite A. now apply effect_understood.
        -- intros _. solve_events.
      * destruct (Feedback.handle_feedback_clarify w wd s front a b Hm)
          as (tr & reply & _ & E & _ & Hev).
        destruct (script_run_feedback _ _ _ _ _ _ A P E) as (t2 & E2 & Hev2).
        do 3 eexists. split; [apply interaction_of_ok, E2|]. split.
        -- rewrite A, <- app_assoc. now apply effect_clarify.
        -- intros Hr. specialize (Hev Hr). solve_events.
  - destruct (script_body_passive w wd (ClickFeedback understood) s I)
      as (tr & E & Hev).
    eapply interaction_spec_unchanged; [|exact Hev].
    apply interaction_of_ok. unfold script_run.
    rewrite (bind_ok _ _ s s [] tt s tr (Ok tt));
      [reflexivity | now apply on_click_callback_idle | exact E].
Qed.

(** Every user action acts on the session as [session_effect] says. *)
Lemma interaction_effect w wd inp s : interaction_spec w wd inp s.
Proof.
  destruct inp.
  - apply interaction_no_input.
  - apply interaction_login.
  - apply interaction_logout.
  - apply interaction_clear_chat.
  - apply interaction_submit_prompt.
  - apply interaction_feedback.
Qed.

Lemma session_effect_of_interaction w wd inp s :
  session_effect s inp (session_of (interaction w wd inp s)).
Proof.
  destruct (interaction_effect w wd inp s) as (s' & tr & r & E & Heff & _).
  now rewrite E.
Qed.

(** ** Invariants of the reachable session states *)

Lemma session_effect_roles s inp s' :
  session_effect s inp s' -> roles_ok (messages s) -> roles_ok (messages s').
Proof.
  intros Heff Hr. destruct Heff; cbn [messages initial_session]; auto.
  - constructor.
  - constructor.
  - apply roles_ok_app; [exact Hr|].
    constructor; [left; reflexivity | apply roles_ok_assistant].
  - apply roles_ok_app; [exact Hr|].
    constructor; [left; reflexivity | apply roles_ok_assistant].
Qed.

Lemma reachable_roles_ok s : reachable s -> roles_ok (messages s).
Proof.
  induction 1 as [|s w wd inp Hs IH]; [constructor|].
  eapply session_effect_roles; [apply session_effect_of_interaction | exact IH].
Qed.

(** While feedback is awaited the store holds the exchange being judged. *)
Lemma session_effect_pending s inp s' :
  session_effect s inp s' ->
  (feedback_pending s = true -> 2 <= List.length (messages s)) ->
  feedback_pending s' = true -> 2 <= List.length (messages s').
Proof.
  intros Heff Hinv. destruct Heff;
    cbn [messages feedback_pending initial_session]; auto;
    try discriminate; intros _; rewrite length_app; simpl; lia.
Qed.

Lemma reachable_pending_two_turns s :
  reachable s -> feedback_pending s = true -> 2 <= List.length (messages s).
Proof.
  induction 1 as [|s w wd inp Hs IH]; [discriminate|].
  eapply session_effect_pending; [apply session_effect_of_interaction|exact IH].
Qed.

End Script.

(* ================================================================== *)
(** ** The gate, the clear button and the roles in the store *)

Module Gate.

Lemma after_first_exchange_reachable : reachable after_first_exchange.
Proof. do 2 apply reachable_interaction. apply reachable_initial. Qed.

Example after_first_exchange_value :
  after_first_exchange
  = mkSession [ mkMessage "user" "What is a break-even point?";
                mkMessage "assistant" "Break it into fixed and variable costs." ]
              true true (Some "Thunder").
Proof. vm_compute. reflexivity. Qed.

(** "Clear Chat" read as the sequential code it is: the handler returns
    with the store empty and the gate open; between its two assignments the
    store is already empty while the flag is as it was, and nothing is
    rendered there; the click as a whole (the run that clears, then the
    rerun it asks for) renders one page, with an empty history and an
    enabled prompt box.  Whether anything else can read the session state
    between lines 189 and 190 is decided by the host that runs the script,
    not by the script. *)
Lemma clear_chat_sequential_effect
        (w : World) (wd : Widgets) (s : Session)
        (msgs : list Message) (pending : bool) (u : option string) :
  clear_chat s
  = (mkSession [] false (authenticated s) (current_user s), [], Ok tt) /\
  set_messages [] s
  = (mkSession [] (feedback_pending s) (authenticated s) (current_user s),
     [], Ok tt) /\
  interaction w wd ClickClearChat (mkSession msgs pending true u)
  = (mkSession [] false true u,
     [ EvChatHistory []; EvChatInput "Ask your question here..." false ],
     Ok tt) /\
  ~ shows_empty_pending (events_of (interaction w wd ClickClearChat s)).
Proof.
  split; [reflexivity|]. split; [reflexivity|]. split; [reflexivity|].
  unfold shows_empty_pending.
  destruct s as [ms [] [] us]; cbn;
    intros [H1 [H2 | [ph H2]]];
    repeat match goal with
           | H : _ \/ _ |- _ => destruct H
           | H : False |- _ => destruct H
           | H : _ = _ |- _ => discriminate H
           end.
Qed.

(** While feedback is pending, a prompt submission changes nothing and
    reaches no provider and no logger, whatever the session. *)
Lemma submission_while_pending w wd text s :
  feedback_pending s = true ->
  session_of (interaction w wd (SubmitPrompt text) s) = s /\
  primary_calls (events_of (interaction w wd (SubmitPrompt text) s)) = 0 /\
  secondary_calls (events_of (interaction w wd (SubmitPrompt text) s)) = 0 /\
  log_calls (events_of (interaction w wd (SubmitPrompt text) s)) = [] /\
  chat_input (feedback_pending s) (SubmitPrompt text) = None.
Proof.
  destruct s as [msgs p a u]. cbn [feedback_pending]. intros ->.
  destruct a; repeat split.
Qed.

(** With the gate open, a non-empty prompt of a logged-in user is taken:
    the store grows by the prompt and its answer, and the gate closes. *)
Lemma submission_while_open w wd text msgs u :
  PyStr.truthy text = true ->
  exists reply,
    session_of (interaction w wd (SubmitPrompt text)
                            (mkSession msgs false true u))
    = mkSession (msgs ++ [ mkMessage "user" text;
                           mkMessage "assistant" reply ])%list true true u.
Proof.
  intros T.
  destruct (Script.script_run_prompt w wd text msgs u T)
    as (tr & reply & E & _ & _).
  destruct (Script.interaction_of_rerun _ _ _ _ _ _ E) as (t2 & E2 & _).
  exists reply. now rewrite E2.
Qed.

(** C9: in every reachable session state, a prompt submission extends the
    store only if [feedback_pending] is false; while it is true the prompt
    box is disabled, the submission leaves the whole session as it is and
    nothing is asked of a provider or logged. *)
Theorem prompt_accepted_only_when_not_pending
        (w : World) (wd : Widgets) (text : string) (s : Session) :
  reachable s ->
  (messages (session_of (interaction w wd (SubmitPrompt text) s))
   <> messages s ->
   feedback_pending s = false) /\
  (feedback_pending s = true ->
   chat_input (feedback_pending s) (SubmitPrompt text) = None /\
   session_of (interaction w wd (SubmitPrompt text) s) = s /\
   primary_calls (events_of (interaction w wd (SubmitPrompt text) s)) = 0 /\
   secondary_calls (events_of (interaction w wd (SubmitPrompt text) s)) = 0 /\
   log_calls (events_of (interaction w wd (SubmitPrompt text) s)) = []).
Proof.
  intros _. split.
  - intros Hchanged. destruct (feedback_pending s) eqn:P; [|reflexivity].
    destruct (submission_while_pending w wd text s P) as (E & _).
    rewrite E in Hchanged. now elim Hchanged.
  - intros P.
    destruct (submission_while_pending w wd text s P) as (E & G & O & L & C).
    repeat split; assumption.
Qed.

Lemma prompt_accepted_only_when_not_pending_witness :
  let out := interaction answering_world default_widgets
                         (SubmitPrompt "And the margin?")
                         after_first_exchange in
  (messages (session_of out) <> messages after_first_exchange ->
   feedback_pending after_first_exchange = false) /\
  (feedback_pending after_first_exchange = true ->
   chat_input (feedback_pending after_first_exchange)
              (SubmitPrompt "And the margin?") = None /\
   session_of out = after_first_exchange /\
   primary_calls (events_of out) = 0 /\
   secondary_calls (events_of out) = 0 /\
   log_calls (events_of out) = []).
Proof.
  apply (prompt_accepted_only_when_not_pending
           answering_world default_widgets
           "And the margin?" after_first_exchange).
  do 2 apply reachable_interaction. apply reachable_initial.
Defined.

(** C10: in every reachable session state every turn of the store has role
    "user" or "assistant", none has role "model"; so line 112 never rewrites
    a role of the store, the OpenAI translation keeps every turn as it is
    behind the system message, and every request a user action sends to the
    secondary provider carries such an unchanged history. *)
Theorem reachable_roles_translation_is_identity (s : Session) :
  reachable s ->
  roles_ok (messages s) /\
  (forall m, In m (messages s) -> role m <> "model") /\
  remap_count (messages s) = 0 /\
  map oa_role (messages s) = map role (messages s) /\
  (forall sys,
      oa_messages sys (messages s) = mkMessage "system" sys :: messages s) /\
  (forall w wd inp,
      Forall secondary_call_identity (events_of (interaction w wd inp s))).
Proof.
  intros Hs. pose proof (Script.reachable_roles_ok s Hs) as Hr.
  split; [exact Hr|]. split; [|split; [|split; [|split]]].
  - intros m Hin. unfold roles_ok in Hr. rewrite Forall_forall in Hr.
    destruct (Hr m Hin) as [H | H]; rewrite H; discriminate.
  - apply (roles_ok_identity "" _ Hr).
  - apply (roles_ok_identity "" _ Hr).
  - intros sys. apply (roles_ok_identity sys _ Hr).
  - intros w wd inp.
    destruct (Script.interaction_effect w wd inp s)
      as (s' & tr & r & E & _ & Hev).
    rewrite E. exact (Hev Hr).
Qed.

Lemma reachable_roles_translation_is_identity_witness :
  roles_ok (messages after_first_exchange) /\
  (forall m, In m (messages after_first_exchange) -> role m <> "model") /\
  remap_count (messages after_first_exchange) = 0 /\
  map oa_role (messages after_first_exchange)
  = map role (messages after_first_exchange) /\
  (forall sys,
      oa_messages sys (messages after_first_exchange)
      = mkMessage "system" sys :: messages after_first_exchange) /\
  (forall w wd inp,
      Forall secondary_call_identity
             (events_of (interaction w wd inp after_first_exchange))).
Proof.
  apply (reachable_roles_translation_is_identity after_first_exchange).
  do 2 apply reachable_interaction. apply reachable_initial.
Defined.

(** The rewriting of line 112 does act on a turn with role "model". *)
Example oa_role_rewrites_model :
  oa_messages "sys" [ mkMessage "model" "hello" ]
  = [ mkMessage "system" "sys"; mkMessage "assistant" "hello" ].
Proof. reflexivity. Qed.

End Gate.

(* ================================================================== *)
(** ** Response generator: calls and requests *)

Module Requests.

Lemma get_ai_response_exact w label h sys s :
  get_ai_response w label h sys s
  = (s, requests_of w label h sys, Ok (answer_of w label h sys)).
Proof.
  destruct (get_ai_response_quiet w label h sys s) as (tr & text & E & _).
  destruct (get_ai_response_session_irrelevant w label h sys s initial_session)
    as [Hev Hres].
  unfold requests_of, answer_of. rewrite <- Hev, <- Hres, E. reflexivity.
Qed.

(** The events of the two attempts, whatever they end with. *)
Lemma gemini_attempt_calls w label h sys s :
  primary_calls (events_of (gemini_attempt w label h sys s))
  = match genai_client w, dict_get MODEL_MAPPING label with
    | inl _, Some _ => 1
    | _, _ => 0
    end
  /\ secondary_calls (events_of (gemini_attempt w label h sys s)) = 0.
Proof.
  unfold gemini_attempt; unfold_script.
  generalize (dict_get MODEL_MAPPING label); intros lookup.
  destruct (genai_client w) as [key|d]; [|split; reflexivity].
  destruct lookup as [id|]; [|split; reflexivity].
  destruct (generate_content w key id (api_contents h) sys);
    split; reflexivity.
Qed.

Lemma openai_attempt_calls w h sys s :
  primary_calls (events_of (openai_attempt w h sys s)) = 0 /\
  secondary_calls (events_of (openai_attempt w h sys s)) <= 1.
Proof.
  unfold openai_attempt; unfold_script.
  unfold events_of, secondary_calls, primary_calls.
  destruct (openai_client w) as [key|d]; [|split; [reflexivity | simpl; lia]].
  destruct (chat_completions_create w key "gpt-5.2" (oa_messages sys h))
    as [[|c cs]|d]; split; solve [reflexivity | simpl; lia].
Qed.

Lemma primary_calls_app t1 t2 :
  primary_calls (t1 ++ t2)%list = primary_calls t1 + primary_calls t2.
Proof. unfold primary_calls. now rewrite filter_app, length_app. Qed.

Lemma secondary_calls_app t1 t2 :
  secondary_calls (t1 ++ t2)%list = secondary_calls t1 + secondary_calls t2.
Proof. unfold secondary_calls. now rewrite filter_app, length_app. Qed.

Lemma get_ai_response_calls
      (w : World) (label : string) (h : list Message) (sys : string)
      (s : Session) :
  primary_calls (events_of (get_ai_response w label h sys s)) <= 1 /\
  secondary_calls (events_of (get_ai_response w label h sys s)) <= 1 /\
  (secondary_calls (events_of (get_ai_response w label h sys s)) = 1 ->
   exists d,
     result_of (gemini_attempt w label h sys s) = Raise (PyException d) /\
     is_unavailable d = true).
Proof.
  pose proof (gemini_attempt_calls w label h sys s) as [Gp Gs].
  pose proof (openai_attempt_calls w h sys s) as [Op Os].
  assert (Gp1 : primary_calls (events_of (gemini_attempt w label h sys s)) <= 1).
  { rewrite Gp. generalize (dict_get MODEL_MAPPING label); intros lookup.
    destruct (genai_client w), lookup; lia. }
  clear Gp.
  destruct (gemini_attempt_outcome w label h sys s)
    as (tr & _ & [[text E] | [d E]]); rewrite E in *;
    unfold events_of in Gp1, Gs; simpl in Gp1, Gs.
  - rewrite (get_ai_response_primary_ok _ _ _ _ _ _ _ E).
    unfold events_of, result_of; simpl.
    split; [lia|]. split; lia.
  - destruct (is_unavailable d) eqn:U.
    + destruct (openai_attempt_outcome w h sys s)
        as (tr2 & [[t E2] | [d2 E2]]); rewrite E2 in *;
        unfold events_of in Op, Os; simpl in Op, Os.
      * rewrite (get_ai_response_fallback_ok _ _ _ _ _ _ _ _ _ E U E2).
        unfold events_of, result_of; simpl.
        rewrite primary_calls_app, secondary_calls_app.
        change (fallback_warning :: tr2) with ([fallback_warning] ++ tr2)%list.
        rewrite primary_calls_app, secondary_calls_app. simpl.
        split; [lia|]. split; [lia|]. intros _. exists d. now split.
      * rewrite (get_ai_response_both_fail _ _ _ _ _ _ _ _ _ E U E2).
        unfold events_of, result_of; simpl. rewrite app_nil_r.
        rewrite primary_calls_app, secondary_calls_app.
        change (fallback_warning :: tr2) with ([fallback_warning] ++ tr2)%list.
        rewrite primary_calls_app, secondary_calls_app. simpl.
        split; [lia|]. split; [lia|]. intros _. exists d. now split.
    + rewrite (get_ai_response_other_failure _ _ _ _ _ _ _ E U).
      unfold events_of, result_of; simpl. rewrite app_nil_r.
      split; [lia|]. split; lia.
Qed.

Lemma provider_requests_length (tr : list Event) :
  List.length (provider_requests tr) <= primary_calls tr + secondary_calls tr.
Proof.
  unfold provider_requests, primary_calls, secondary_calls.
  induction tr as [|e tr IH]; [simpl; lia|].
  destruct e; cbn [filter is_primary_call is_secondary_call orb List.length];
    lia.
Qed.

(** X1: one invocation calls each provider at most once, so it sends at
    most two requests in all, and it calls the secondary provider only after
    the primary attempt has failed with a description of the unavailability
    class. *)
Theorem at_most_one_call_per_provider
        (w : World) (label : string) (h : list Message) (sys : string)
        (s : Session) :
  primary_calls (events_of (get_ai_response w label h sys s)) <= 1 /\
  secondary_calls (events_of (get_ai_response w label h sys s)) <= 1 /\
  (secondary_calls (events_of (get_ai_response w label h sys s)) = 1 ->
   exists d,
     result_of (gemini_attempt w label h sys s) = Raise (PyException d) /\
     is_unavailable d = true) /\
  List.length (provider_requests (events_of (get_ai_response w label h sys s)))
  <= 2.
Proof.
  destruct (get_ai_response_calls w label h sys s) as (P1 & P2 & Hsec).
  split; [exact P1|]. split; [exact P2|]. split; [exact Hsec|].
  pose proof (provider_requests_length
                (events_of (get_ai_response w label h sys s))).
  lia.
Qed.

Lemma requests_of_at_most_two w label h sys :
  List.length (provider_requests (requests_of w label h sys)) <= 2.
Proof.
  pose proof (get_ai_response_calls w label h sys initial_session)
    as (P1 & P2 & _).
  pose proof (provider_requests_length (requests_of w label h sys)).
  unfold requests_of in *. lia.
Qed.

Lemma primary_calls_of_get_ai_response w label h sys s :
  primary_calls (events_of (get_ai_response w label h sys s))
  = match genai_client w, dict_get MODEL_MAPPING label with
    | inl _, Some _ => 1
    | _, _ => 0
    end.
Proof.
  unfold get_ai_response, gemini_attempt, openai_attempt; unfold_script.
  generalize (dict_get MODEL_MAPPING label); intros lookup.
  repeat case_scrutinee; reflexivity.
Qed.

(** X2: the primary provider is called exactly when the Gemini client
    could be built and the label is a key of [MODEL_MAPPING]; a label that
    is not in the mapping never reaches the provider. *)
Theorem primary_called_iff_client_and_known_label
        (w : World) (label : string) (h : list Message) (sys : string)
        (s : Session) :
  primary_calls (events_of (get_ai_response w label h sys s))
  = match genai_client w, dict_get MODEL_MAPPING label with
    | inl _, Some _ => 1
    | _, _ => 0
    end.
Proof.
  destruct (gemini_attempt_calls w label h sys s) as [Gp _].
  rewrite <- Gp. clear Gp.
  destruct (openai_attempt_calls w h sys s) as [Op _].
  destruct (gemini_attempt_outcome w label h sys s)
    as (tr & _ & [[text E] | [d E]]); rewrite E.
  - now rewrite (get_ai_response_primary_ok _ _ _ _ _ _ _ E).
  - destruct (is_unavailable d) eqn:U.
    + destruct (openai_attempt_outcome w h sys s)
        as (tr2 & [[t E2] | [d2 E2]]); rewrite E2 in Op;
        unfold events_of in Op; cbn [fst snd] in Op.
      * rewrite (get_ai_response_fallback_ok _ _ _ _ _ _ _ _ _ E U E2).
        unfold events_of; cbn [fst snd].
        change (fallback_warning :: tr2) with ([fallback_warning] ++ tr2)%list.
        rewrite !primary_calls_app, Op. cbn. lia.
      * rewrite (get_ai_response_both_fail _ _ _ _ _ _ _ _ _ E U E2).
        unfold events_of; cbn [fst snd]. rewrite app_nil_r.
        change (fallback_warning :: tr2) with ([fallback_warning] ++ tr2)%list.
        rewrite !primary_calls_app, Op. cbn. lia.
    + rewrite (get_ai_response_other_failure _ _ _ _ _ _ _ E U).
      unfold events_of; cbn [fst snd]. now rewrite app_nil_r.
Qed.

(** X3: a label that is not a key of [MODEL_MAPPING] is answered with the
    text of its [KeyError], without any outbound call, unless that text
    happens to carry the unavailability signature. *)
Theorem unknown_label_reports_key_error
        (w : World) (label : string) (h : list Message) (sys : string)
        (s : Session) (key : string) :
  dict_get MODEL_MAPPING label = None ->
  genai_client w = inl key ->
  is_unavailable (key_error_text w label) = false ->
  get_ai_response w label h sys s
  = (s, [], Ok ("Error: " ++ key_error_text w label)).
Proof.
  intros Hl Hc U.
  unfold get_ai_response, gemini_attempt; unfold_script.
  rewrite Hc, Hl, U. reflexivity.
Qed.

Lemma unknown_label_reports_key_error_witness :
  get_ai_response (world_primary (inl "unused") (inl ["unused"]))
                  "GPT-4" sample_history "Business Planning Assistant"
                  initial_session
  = (initial_session, [], Ok "Error: 'GPT-4'").
Proof.
  apply (unknown_label_reports_key_error
           (world_primary (inl "unused") (inl ["unused"]))
           "GPT-4" sample_history "Business Planning Assistant"
           initial_session "google-key").
  - reflexivity.
  - reflexivity.
  - reflexivity.
Defined.

(** X4: when the fallback request succeeds but carries no choice,
    [choices[0]] fails inside the inner [try]: the answer is the
    "Both models failed" text with the [IndexError] as OpenAI error. *)
Theorem empty_choices_reported_as_fallback_failure
        (w : World) (label : string) (h : list Message) (sys : string)
        (s : Session) (d key2 : string) :
  result_of (gemini_attempt w label h sys s) = Raise (PyException d) ->
  is_unavailable d = true ->
  openai_client w = inl key2 ->
  chat_completions_create w key2 "gpt-5.2" (oa_messages sys h) = inl [] ->
  result_of (get_ai_response w label h sys s)
  = Ok ("Both models failed. Gemini Error: " ++ d
        ++ " | OpenAI Error: " ++ index_error_text w) /\
  secondary_calls (events_of (get_ai_response w label h sys s)) = 1.
Proof.
  intros Hfail U Hclient Hchat.
  destruct (gemini_attempt_outcome w label h sys s)
    as (tr & Hsec & [[t E] | [d' E]]);
    rewrite E in Hfail; simpl in Hfail; [discriminate|].
  injection Hfail as ->.
  assert (E2 : openai_attempt w h sys s
               = (s, [EvChatCompletionsCreate key2 "gpt-5.2"
                                              (oa_messages sys h)],
                  Raise (PyException (index_error_text w)))).
  { unfold openai_attempt; unfold_script.
    rewrite Hclient, Hchat. reflexivity. }
  rewrite (get_ai_response_both_fail _ _ _ _ _ _ _ _ _ E U E2).
  split; [reflexivity|].
  unfold events_of; simpl. rewrite secondary_calls_app, Hsec. reflexivity.
Qed.

Lemma empty_choices_reported_as_fallback_failure_witness :
  let w := world_primary (inr "502 Bad Gateway") (inl []) in
  let out := get_ai_response w "gemini-3-pro-preview" sample_history
                             "Business Planning Assistant" initial_session in
  result_of out
  = Ok ("Both models failed. Gemini Error: " ++ "502 Bad Gateway"
        ++ " | OpenAI Error: " ++ index_error_text w) /\
  secondary_calls (events_of out) = 1.
Proof.
  apply (empty_choices_reported_as_fallback_failure
           (world_primary (inr "502 Bad Gateway") (inl []))
           "gemini-3-pro-preview" sample_history
           "Business Planning Assistant" initial_session
           "502 Bad Gateway" "openai-key").
  - reflexivity.
  - reflexivity.
  - reflexivity.
  - reflexivity.
Defined.

(** What the requests of one invocation are made of. *)
Lemma requests_of_one_invocation
      (w : World) (label : string) (h : list Message) (sys : string)
      (s : Session) :
  (forall key model contents sys',
      In (EvGenerateContent key model contents sys')
         (events_of (get_ai_response w label h sys s)) ->
      genai_client w = inl key /\
      dict_get MODEL_MAPPING label = Some model /\
      contents = api_contents h /\ sys' = sys) /\
  (forall key model msgs,
      In (EvChatCompletionsCreate key model msgs)
         (events_of (get_ai_response w label h sys s)) ->
      openai_client w = inl key /\
      model = "gpt-5.2" /\ msgs = oa_messages sys h).
Proof.
  unfold get_ai_response, gemini_attempt, openai_attempt; unfold_script.
  generalize (dict_get MODEL_MAPPING label); intros lookup.
  destruct (genai_client w) as [key0|d0] eqn:C;
    [destruct lookup as [id|];
     [destruct (generate_content w key0 id (api_contents h) sys) as [t|d1]|]|].
  2-4: match goal with |- context [is_unavailable ?x] =>
         destruct (is_unavailable x) end.
  2,4,6: destruct (openai_client w) as [key2|d2] eqn:C2;
    [destruct (chat_completions_create w key2 "gpt-5.2" (oa_messages sys h))
       as [[|c cs]|d3]|].
  all: unfold events_of; cbn [fst snd app]; split; intros;
    repeat match goal with
           | H : In _ (_ :: _) |- _ => destruct H as [H | H]
           | H : In _ [] |- _ => destruct H
           | H : _ = _ |- _ => first [discriminate H | injection H as <- <- <- <- | injection H as <- <- <-]
           end; auto.
Qed.

(** X5: whatever the label, a request to Gemini carries every turn of the
    history, in order, each as one content with the turn's text as its only
    part and with role "user" for a user turn and "model" for any other,
    together with the system instruction and the mapped model id; a request
    to OpenAI carries the system message followed by every turn of the
    history, in order, each with its text and with its role ("assistant"
    for "model"), always for the model "gpt-5.2". *)
Theorem requests_carry_whole_history
        (w : World) (label : string) (h : list Message) (sys : string)
        (s : Session) :
  (forall key model contents sys',
      In (EvGenerateContent key model contents sys')
         (events_of (get_ai_response w label h sys s)) ->
      genai_client w = inl key /\
      dict_get MODEL_MAPPING label = Some model /\
      contents
      = map (fun m => mkContent (if String.eqb (role m) "user"
                                 then "user" else "model")
                                [content m]) h /\
      List.length contents = List.length h /\
      sys' = sys) /\
  (forall key model msgs,
      In (EvChatCompletionsCreate key model msgs)
         (events_of (get_ai_response w label h sys s)) ->
      openai_client w = inl key /\
      model = "gpt-5.2" /\
      msgs
      = mkMessage "system" sys
        :: map (fun m => mkMessage (if String.eqb (role m) "model"
                                    then "assistant" else role m)
                                   (content m)) h /\
      List.length msgs = S (List.length h)).
Proof.
  destruct (requests_of_one_invocation w label h sys s) as [Hg Ho].
  split.
  - intros key model contents sys' Hin.
    destruct (Hg key model contents sys' Hin) as (C & L & -> & ->).
    repeat split; auto.
    unfold api_contents. apply length_map.
  - intros key model msgs Hin.
    destruct (Ho key model msgs Hin) as (C & -> & ->).
    repeat split; auto.
    unfold oa_messages. cbn [List.length]. now rewrite length_map.
Qed.

(** A request each provider receives for a history of two turns. *)
Example requests_for_two_turns :
  events_of (get_ai_response
               (world_primary (inr "502 Bad Gateway") (inl ["Fallback."]))
               "gemini-3-pro-preview"
               [ mkMessage "user" "Q"; mkMessage "assistant" "A" ]
               "Business Planning Assistant" initial_session)
  = [ EvGenerateContent "google-key" "gemini-3-pro-preview"
        [ mkContent "user" ["Q"]; mkContent "model" ["A"] ]
        "Business Planning Assistant";
      EvWarning "Gemini is currently unavailable (502). Switching to ChatGPT 5.2 fallback...";
      EvChatCompletionsCreate "openai-key" "gpt-5.2"
        [ mkMessage "system" "Business Planning Assistant";
          mkMessage "user" "Q"; mkMessage "assistant" "A" ] ].
Proof. reflexivity. Qed.

Lemma api_contents_roles (h : list Message) :
  Forall known_role h ->
  map gemini_role_for_openai (api_contents h) = map oa_role h.
Proof.
  induction 1 as [|m h Hm Hh IH]; [reflexivity|].
  cbn [api_contents map]. fold (api_contents h). rewrite IH. f_equal.
  unfold gemini_role_for_openai, oa_role. cbn [c_role].
  destruct Hm as [H | [H | H]]; rewrite H; reflexivity.
Qed.

(** X6: both translations keep every turn's text, in order; and on a
    history whose roles are "user", "assistant" or "model" they agree on
    who speaks in each turn: Gemini's "model" is OpenAI's "assistant". *)
Theorem translations_agree
        (sys : string) (h : list Message) :
  map c_parts (api_contents h) = map (fun m => [content m]) h /\
  map content (oa_messages sys h) = sys :: map content h /\
  (Forall known_role h ->
   map gemini_role_for_openai (api_contents h)
   = map role (tl (oa_messages sys h))).
Proof.
  split; [|split].
  - unfold api_contents. rewrite map_map. reflexivity.
  - unfold oa_messages. cbn [map content]. rewrite map_map. reflexivity.
  - intros Hk. rewrite (api_contents_roles h Hk).
    unfold oa_messages. cbn [tl]. rewrite map_map. reflexivity.
Qed.

(** X7: [get_ai_response] keeps nothing between invocations: it leaves the
    session state as it found it, makes no logger call, and its requests and
    its answer are the same from whatever session state it is called. *)
Theorem get_ai_response_is_stateless
        (w : World) (label : string) (h : list Message) (sys : string)
        (s s' : Session) :
  session_of (get_ai_response w label h sys s) = s /\
  log_calls (events_of (get_ai_response w label h sys s)) = [] /\
  events_of (get_ai_response w label h sys s)
  = events_of (get_ai_response w label h sys s') /\
  result_of (get_ai_response w label h sys s)
  = result_of (get_ai_response w label h sys s').
Proof.
  destruct (get_ai_response_quiet w label h sys s) as (tr & text & E & Hq & _).
  destruct (get_ai_response_session_irrelevant w label h sys s s') as [He Hr].
  rewrite <- He, <- Hr, E. repeat split. exact Hq.
Qed.

End Requests.

(* ================================================================== *)
(** ** Interaction logger *)

Module Logger.

Lemma replace_char_length old new s :
  String.length (PyStr.replace_char old new s) = String.length s.
Proof. induction s as [|c s IH]; simpl; congruence. Qed.

Lemma replace_char_removes old new s :
  old <> new ->
  PyStr.str_in (String old "") (PyStr.replace_char old new s) = false.
Proof.
  intros Hne. induction s as [|c s IH]; [reflexivity|].
  cbn [PyStr.replace_char PyStr.str_in String.prefix].
  destruct (Ascii.eqb_spec c old) as [->|Hc].
  - destruct (ascii_dec old new) as [E|_]; [contradiction|exact IH].
  - destruct (ascii_dec old c) as [E|_]; [congruence|exact IH].
Qed.

Lemma replace_char_absent old new s :
  PyStr.str_in (String old "") s = false ->
  PyStr.replace_char old new s = s.
Proof.
  induction s as [|c s IH]; [reflexivity|].
  cbn [PyStr.replace_char PyStr.str_in String.prefix].
  destruct (ascii_dec old c) as [E|Hc].
  - destruct s; discriminate.
  - intros H. rewrite (IH H).
    destruct (Ascii.eqb_spec c old) as [->|_]; [contradiction|reflexivity].
Qed.

Lemma save_to_firebase_db_writes w user label p r kind s :
  db_writes (events_of (save_to_firebase w user label p r kind s))
  = let path := [ "logs";
                  PyStr.replace_char "."%char "_"%char (str_of_user user);
                  now_key w ] in
    if db_ref w
    then match db_child w path with
         | inl _ => [ (path, mkLogPayload label p r kind (now_full w)) ]
         | inr _ => []
         end
    else [].
Proof.
  unfold save_to_firebase; unfold_script. cbv zeta.
  destruct (db_ref w); [|reflexivity].
  case_database w; reflexivity.
Qed.

(** X8: [save_to_firebase] reports a failure of line 64 instead of
    raising, and stays silent without a database.  With [db_ref] missing it
    writes nothing, shows nothing and returns [None].  Otherwise, when the
    path /logs/<user>/<timestamp> is refused, it writes nothing, shows the
    error and returns [False]; when the path is accepted it makes exactly
    one write there, of the arguments as given, and returns [True], or
    [False] after showing the error of the write.  It never touches the
    session state. *)
Theorem save_to_firebase_reports_instead_of_raising
        (w : World) (user : option string) (label p r kind : string)
        (s : Session) :
  let out := save_to_firebase w user label p r kind s in
  let path := [ "logs";
                PyStr.replace_char "."%char "_"%char (str_of_user user);
                now_key w ] in
  let payload := mkLogPayload label p r kind (now_full w) in
  session_of out = s /\
  log_calls (events_of out) = [mkLogCall user label p r kind] /\
  (db_ref w = false ->
   result_of out = Ok None /\
   db_writes (events_of out) = [] /\ errors_shown (events_of out) = []) /\
  (db_ref w = true ->
   match db_child w path with
   | inr d =>
       result_of out = Ok (Some false) /\
       db_writes (events_of out) = [] /\
       errors_shown (events_of out) = ["Firebase Logging error: " ++ d]
   | inl _ =>
       db_writes (events_of out) = [(path, payload)] /\
       match db_set w path payload with
       | inl _ =>
           result_of out = Ok (Some true) /\
           errors_shown (events_of out) = []
       | inr d =>
           result_of out = Ok (Some false) /\
           errors_shown (events_of out) = ["Firebase Logging error: " ++ d]
       end
   end).
Proof.
  unfold save_to_firebase; unfold_script.
  destruct (db_ref w).
  - case_database w;
      cbn; (split; [reflexivity|]); (split; [reflexivity|]);
      (split; [discriminate|]); intros _; repeat split.
  - cbn. split; [reflexivity|]. split; [reflexivity|].
    split; [intros _; repeat split | discriminate].
Qed.

(** A user id with "#" in a database that refuses it: nothing is written,
    the error is shown, [False] is returned. *)
Example save_to_firebase_refused_user_id :
  save_to_firebase world_refusing_hash (Some "a.b#c") "gemini-3-pro-preview" "q" "a"
                   "INITIAL_QUERY" initial_session
  = (initial_session,
     [ EvSaveToFirebase (mkLogCall (Some "a.b#c") "gemini-3-pro-preview"
                                   "q" "a" "INITIAL_QUERY");
       EvError "Firebase Logging error: Invalid path: illegal characters." ],
     Ok (Some false)).
Proof. reflexivity. Qed.

(** X9: the user segment of every path [save_to_firebase] writes to
    contains no ".", whatever the user id; it is as long as [str(user_id)],
    equal to it when that has no ".", and it is "None" for a missing user. *)
Theorem logged_path_has_no_dot
        (w : World) (user : option string) (label p r kind : string)
        (s : Session) :
  let clean := PyStr.replace_char "."%char "_"%char (str_of_user user) in
  (forall path payload,
      In (path, payload)
         (db_writes (events_of (save_to_firebase w user label p r kind s))) ->
      path = [ "logs"; clean; now_key w ]) /\
  PyStr.str_in "." clean = false /\
  String.length clean = String.length (str_of_user user) /\
  (PyStr.str_in "." (str_of_user user) = false -> clean = str_of_user user) /\
  (user = None -> clean = "None").
Proof.
  intros clean. split; [|split; [|split; [|split]]].
  - intros path payload. rewrite save_to_firebase_db_writes. cbv zeta.
    destruct (db_ref w); [|intros []].
    destruct (db_child w _); [|intros []].
    intros [H | []]. now injection H as <- _.
  - apply replace_char_removes. discriminate.
  - apply replace_char_length.
  - apply replace_char_absent.
  - intros ->. reflexivity.
Qed.

End Logger.


(* ================================================================== *)
(** ** Runs written out *)

Module Exact.

Lemma save_to_firebase_exact w user label p r kind s :
  exists res,
    save_to_firebase w user label p r kind s
    = (s, logging_of w (mkLogCall user label p r kind), Ok res).
Proof.
  unfold logging_of, save_to_firebase; unfold_script. cbn [lc_user_id
    lc_model_name lc_prompt lc_full_response lc_interaction_type].
  destruct (db_ref w); [|eexists; reflexivity].
  case_database w; eexists; reflexivity.
Qed.

Lemma logging_of_facts w c :
  log_calls (logging_of w c) = [c] /\
  provider_requests (logging_of w c) = [] /\
  Forall logger_event (logging_of w c).
Proof.
  destruct c as [u l p r k].
  destruct (save_to_firebase_outcome w u l p r k initial_session)
    as (tr & res & E & Hq & Hev).
  unfold logging_of. cbn [lc_user_id lc_model_name lc_prompt lc_full_response
    lc_interaction_type]. rewrite E. unfold events_of; cbn [fst snd].
  split; [cbn; now rewrite Hq|]. split.
  - cbn. clear E Hq. induction Hev as [|e tr He _ IH]; [reflexivity|].
    destruct e; try contradiction; exact IH.
  - constructor; [exact I | exact Hev].
Qed.

Lemma requests_of_facts w label h sys :
  log_calls (requests_of w label h sys) = [] /\
  db_writes (requests_of w label h sys) = [] /\
  Forall (generator_event sys h) (requests_of w label h sys).
Proof.
  destruct (get_ai_response_quiet w label h sys initial_session)
    as (tr & text & E & Hq & Hev).
  unfold requests_of. rewrite E. unfold events_of; cbn [fst snd].
  split; [exact Hq|]. split; [|exact Hev].
  clear E Hq. induction Hev as [|e tr He _ IH]; [reflexivity|].
  destruct e; try contradiction; exact IH.
Qed.

Lemma handle_feedback_understood_exact w wd s front a b :
  messages s = (front ++ [a; b])%list ->
  handle_feedback w wd true s
  = (mkSession (messages s) false (authenticated s) (current_user s),
     logging_of w (feedback_event_call wd s (content b) true),
     Ok tt).
Proof.
  intros Hm.
  destruct (save_to_firebase_exact
              w (current_user s) (selected_label wd) (content b)
              "UNDERSTOOD_FEEDBACK" "FEEDBACK_EVENT" s) as (res & E).
  Script.loosen_trace.
  - unfold handle_feedback.
    eapply bind_ok; [reflexivity|]. rewrite Hm.
    eapply bind_ok; [apply index_from_end_2|].
    eapply bind_ok; [apply index_from_end_1|].
    eapply bind_ok; [reflexivity|].
    eapply bind_ok; [exact E|].
    cbn [negb]. rewrite <- Hm. reflexivity.
  - cbn [app]. now rewrite app_nil_r.
Qed.

Lemma handle_feedback_clarify_exact w wd s front a b :
  messages s = (front ++ [a; b])%list ->
  let request := clarification_prompt_of (content b) in
  let history := (messages s ++ [mkMessage "user" request])%list in
  let reply := answer_of w (selected_label wd) history
                         (system_instruction_input wd) in
  handle_feedback w wd false s
  = (mkSession (history ++ [mkMessage "assistant" reply])%list true
               (authenticated s) (current_user s),
     (logging_of w (feedback_event_call wd s (content b) false)
      ++ requests_of w (selected_label wd) history
                     (system_instruction_input wd)
      ++ logging_of w (mkLogCall (current_user s) (selected_label wd)
                                 request reply "CLARIFICATION_RESPONSE"))%list,
     Ok tt).
Proof.
  intros Hm request history reply.
  set (s1 := mkSession history (feedback_pending s) (authenticated s)
                       (current_user s)).
  destruct (save_to_firebase_exact
              w (current_user s) (selected_label wd) (content b)
              "CLARIFICATION_REQUESTED" "FEEDBACK_EVENT" s) as (res1 & E1).
  pose proof (Requests.get_ai_response_exact
                w (selected_label wd) history (system_instruction_input wd) s1)
    as Eg.
  destruct (save_to_firebase_exact
              w (current_user s) (selected_label wd) request reply
              "CLARIFICATION_RESPONSE" s1) as (res2 & E2).
  Script.loosen_trace.
  - unfold handle_feedback.
    eapply bind_ok; [reflexivity|]. rewrite Hm.
    eapply bind_ok; [apply index_from_end_2|].
    eapply bind_ok; [apply index_from_end_1|].
    eapply bind_ok; [reflexivity|].
    eapply bind_ok; [exact E1|].
    cbn [negb].
    eapply bind_ok; [apply Feedback.append_message_eq|].
    fold request history s1.
    eapply bind_ok; [reflexivity|].
    eapply bind_ok; [exact Eg|].
    eapply bind_ok; [reflexivity|].
    eapply bind_ok; [exact E2|].
    eapply bind_ok; [apply Feedback.append_message_eq|].
    reflexivity.
  - cbn [app]. now rewrite !app_nil_r.
Qed.

Lemma submit_prompt_exact w wd text s :
  submit_prompt w wd text s
  = (session_after_prompt w wd text s, prompt_events w wd text s,
     Raise RerunException).
Proof.
  unfold session_after_prompt, prompt_events.
  set (history := (messages s ++ [mkMessage "user" text])%list).
  set (reply := answer_of w (selected_label wd) history
                          (system_instruction_input wd)).
  set (s1 := mkSession history (feedback_pending s) (authenticated s)
                       (current_user s)).
  pose proof (Requests.get_ai_response_exact
                w (selected_label wd) history (system_instruction_input wd) s1)
    as Eg.
  destruct (save_to_firebase_exact
              w (current_user s) (selected_label wd) text reply
              "INITIAL_QUERY" s1) as (res2 & E2).
  Script.loosen_trace.
  - unfold submit_prompt.
    eapply bind_ok; [apply Feedback.append_message_eq|]. fold history s1.
    eapply bind_ok; [reflexivity|].
    eapply bind_ok; [exact Eg|].
    eapply bind_ok; [reflexivity|].
    eapply bind_ok; [exact E2|].
    eapply bind_ok; [apply Feedback.append_message_eq|].
    eapply bind_ok; [reflexivity|].
    reflexivity.
  - cbn [app]. now rewrite !app_nil_r.
Qed.

(** A run of the body that takes no prompt and clicks nothing in the
    sidebar renders the page and leaves the session alone. *)
Lemma script_body_renders_page w wd inp s :
  match inp with NoInput | ClickFeedback _ => True | _ => False end ->
  script_body w wd inp s = (s, page s, Ok tt).
Proof.
  destruct s as [msgs p a u].
  destruct inp; try contradiction; intros _; destruct a, p; reflexivity.
Qed.

Lemma script_run_no_input w wd s :
  script_run w wd NoInput s = (s, page s, Ok tt).
Proof.
  unfold script_run.
  rewrite (bind_ok _ _ s s [] tt s (page s) (Ok tt));
    [reflexivity | reflexivity | now apply script_body_renders_page].
Qed.

Lemma interaction_after_rerun w wd inp s s1 t1 :
  script_run w wd inp s = (s1, t1, Raise RerunException) ->
  interaction w wd inp s = (s1, (t1 ++ page s1)%list, Ok tt).
Proof.
  intros E. unfold interaction. now rewrite E, script_run_no_input.
Qed.

(** Each user action, written out. *)
Lemma interaction_no_input_exact w wd s :
  interaction w wd NoInput s = (s, page s, Ok tt).
Proof. apply Script.interaction_of_ok, script_run_no_input. Qed.

Lemma interaction_unauthenticated w wd inp s :
  authenticated s = false ->
  match inp with ClickLogin _ => False | _ => True end ->
  interaction w wd inp s = (s, page s, Ok tt).
Proof.
  destruct s as [msgs p a u]. cbn [authenticated]. intros ->.
  destruct inp; try contradiction; intros _; destruct p; reflexivity.
Qed.

Lemma interaction_login_exact w wd u_id s :
  authenticated s = false ->
  interaction w wd (ClickLogin u_id) s
  = if list_in u_id AUTHORIZED_STUDENT_IDS
    then (mkSession (messages s) (feedback_pending s) true (Some u_id),
          EvSuccess "Welcome!"
          :: page (mkSession (messages s) (feedback_pending s) true
                             (Some u_id)),
          Ok tt)
    else (s, EvError "Invalid Student ID" :: page s, Ok tt).
Proof.
  destruct s as [msgs p a u]. cbn [authenticated messages feedback_pending].
  intros ->.
  destruct (list_in u_id AUTHORIZED_STUDENT_IDS) eqn:L.
  - apply (interaction_after_rerun _ _ _ _ _ [EvSuccess "Welcome!"]).
    unfold script_run, script_body, sidebar_account; unfold_script.
    cbn [on_click_callback authenticated negb]. rewrite L. reflexivity.
  - apply Script.interaction_of_ok.
    unfold script_run, script_body, sidebar_account; unfold_script.
    cbn [on_click_callback authenticated negb]. rewrite L. reflexivity.
Qed.

Lemma interaction_login_when_authenticated w wd u_id s :
  authenticated s = true ->
  interaction w wd (ClickLogin u_id) s = (s, page s, Ok tt).
Proof.
  destruct s as [msgs p a u]. cbn [authenticated]. intros ->.
  destruct p; reflexivity.
Qed.

Lemma interaction_logout_exact w wd s :
  authenticated s = true ->
  interaction w wd ClickLogout s
  = (initial_session, page initial_session, Ok tt).
Proof.
  destruct s as [msgs p a u]. cbn [authenticated]. intros ->. reflexivity.
Qed.

Lemma interaction_clear_exact w wd s :
  authenticated s = true ->
  interaction w wd ClickClearChat s
  = (mkSession [] false true (current_user s),
     page (mkSession [] false true (current_user s)), Ok tt).
Proof.
  destruct s as [msgs p a u]. cbn [authenticated]. intros ->. reflexivity.
Qed.

Lemma handle_feedback_exact w wd understood s :
  2 <= List.length (messages s) ->
  handle_feedback w wd understood s
  = (session_after_feedback w wd understood s,
     feedback_events w wd understood s, Ok tt).
Proof.
  intros Hlen. destruct (two_last _ Hlen) as (front & a & b & Hm).
  assert (Hl : List.last (messages s) (mkMessage "" "") = b)
    by (rewrite Hm; apply Feedback.last_two).
  unfold session_after_feedback, feedback_events, clarification_history.
  rewrite Hl. destruct understood.
  - apply (handle_feedback_understood_exact w wd s front a b Hm).
  - apply (handle_feedback_clarify_exact w wd s front a b Hm).
Qed.

Lemma interaction_prompt_taken w wd text s :
  authenticated s = true ->
  feedback_pending s = false ->
  PyStr.truthy text = true ->
  interaction w wd (SubmitPrompt text) s
  = (session_after_prompt w wd text s,
     (page s ++ prompt_events w wd text s
      ++ page (session_after_prompt w wd text s))%list,
     Ok tt).
Proof.
  intros A P T.
  assert (E : script_run w wd (SubmitPrompt text) s
              = (session_after_prompt w wd text s,
                 (page s ++ prompt_events w wd text s)%list,
                 Raise RerunException)).
  { Script.loosen_trace.
    - unfold script_run, script_body, main_area.
      eapply bind_ok; [reflexivity|].
      eapply bind_ok; [unfold sidebar_account, bind, read; rewrite A;
                       reflexivity|].
      eapply bind_ok; [unfold sidebar_clear, bind, read; rewrite A;
                       reflexivity|].
      eapply bind_ok; [reflexivity|]. rewrite A. cbn [negb].
      eapply bind_ok; [reflexivity|].
      eapply bind_ok; [reflexivity|].
      eapply bind_ok; [reflexivity|].
      eapply bind_ok; [reflexivity|].
      apply bind_raise. rewrite P. cbn [chat_input]. rewrite T.
      apply submit_prompt_exact.
    - unfold page. rewrite A, P. reflexivity. }
  rewrite (interaction_after_rerun _ _ _ _ _ _ E).
  now rewrite <- app_assoc.
Qed.

Lemma interaction_prompt_ignored w wd text s :
  authenticated s = false \/ feedback_pending s = true
  \/ PyStr.truthy text = false ->
  interaction w wd (SubmitPrompt text) s = (s, page s, Ok tt).
Proof.
  destruct s as [msgs p a u]. cbn [authenticated feedback_pending].
  intros [-> | [-> | T]].
  - destruct p; reflexivity.
  - destruct a; reflexivity.
  - destruct text; [|discriminate T]. destruct a, p; reflexivity.
Qed.

Lemma script_run_feedback_exact w wd understood s s1 t1 :
  authenticated s = true ->
  feedback_pending s = true ->
  handle_feedback w wd understood s = (s1, t1, Ok tt) ->
  script_run w wd (ClickFeedback understood) s
  = (s1, (t1 ++ page s1)%list, Ok tt).
Proof.
  intros A P E. unfold script_run.
  eapply bind_ok; [|now apply script_body_renders_page].
  unfold on_click_callback, bind, read. rewrite A, P. cbn [andb].
  rewrite E. reflexivity.
Qed.

Lemma interaction_feedback_exact w wd understood s :
  authenticated s = true ->
  feedback_pending s = true ->
  2 <= List.length (messages s) ->
  interaction w wd (ClickFeedback understood) s
  = (session_after_feedback w wd understood s,
     (feedback_events w wd understood s
      ++ page (session_after_feedback w wd understood s))%list,
     Ok tt).
Proof.
  intros A P Hlen. apply Script.interaction_of_ok.
  apply (script_run_feedback_exact _ _ _ _ _ _ A P).
  now apply handle_feedback_exact.
Qed.

Lemma interaction_feedback_ignored w wd understood s :
  authenticated s && feedback_pending s = false ->
  interaction w wd (ClickFeedback understood) s = (s, page s, Ok tt).
Proof.
  intros G. apply Script.interaction_of_ok. unfold script_run.
  rewrite (bind_ok _ _ s s [] tt s (page s) (Ok tt));
    [reflexivity | now apply Script.on_click_callback_idle
    | now apply script_body_renders_page].
Qed.

Lemma interaction_feedback_short w wd understood s :
  authenticated s = true ->
  feedback_pending s = true ->
  List.length (messages s) < 2 ->
  interaction w wd (ClickFeedback understood) s
  = (s, [], Raise (PyException (index_error_text w))).
Proof.
  intros A P Short. apply Script.interaction_of_exception.
  unfold script_run. apply bind_raise.
  unfold on_click_callback, bind, read. rewrite A, P. cbn [andb].
  rewrite (Script.handle_feedback_short _ _ _ _ Short). reflexivity.
Qed.

End Exact.


(* ================================================================== *)
(** ** Feedback controller: bounds, rounds and requests *)

Module Controller.

Lemma provider_requests_app t1 t2 :
  provider_requests (t1 ++ t2)%list
  = (provider_requests t1 ++ provider_requests t2)%list.
Proof. apply filter_app. Qed.

(** X10: on a store of fewer than two turns [handle_feedback] fails at
    line 137 with the [IndexError] of [messages[-2]], whichever button was
    clicked, before it logs or changes anything. *)
Theorem feedback_on_short_store_raises
        (w : World) (wd : Widgets) (understood : bool) (s : Session) :
  List.length (messages s) < 2 ->
  handle_feedback w wd understood s
  = (s, [], Raise (PyException (index_error_text w))).
Proof.
  intros H. unfold handle_feedback.
  rewrite (bind_ok _ _ s s [] (messages s) s []
                   (Raise (PyException (index_error_text w))));
    [reflexivity | reflexivity |].
  apply bind_raise. now apply index_from_end_short.
Qed.

Lemma feedback_on_short_store_raises_witness :
  handle_feedback answering_world default_widgets false one_turn_session
  = (one_turn_session, [],
     Raise (PyException (index_error_text answering_world))).
Proof.
  apply (feedback_on_short_store_raises
           answering_world default_widgets false one_turn_session).
  simpl. lia.
Defined.

Lemma clarify_once w wd s :
  2 <= List.length (messages s) ->
  let out := handle_feedback w wd false s in
  result_of out = Ok tt /\
  feedback_pending (session_of out) = true /\
  List.length (messages (session_of out)) = List.length (messages s) + 2 /\
  List.length (log_calls (events_of out)) = 2 /\
  List.length (provider_requests (events_of out)) <= 2.
Proof.
  intros Hlen. cbv zeta. rewrite (Exact.handle_feedback_exact _ _ _ _ Hlen).
  unfold result_of, session_of, events_of; cbn [fst snd].
  unfold session_after_feedback, feedback_events, clarification_history.
  cbn [messages feedback_pending].
  split; [reflexivity|]. split; [reflexivity|]. split; [|split].
  - rewrite !length_app. simpl. lia.
  - rewrite !log_calls_app.
    repeat match goal with
           | |- context [log_calls (logging_of ?w ?c)] =>
               rewrite (proj1 (Exact.logging_of_facts w c))
           | |- context [log_calls (requests_of ?w ?l ?h ?y)] =>
               rewrite (proj1 (Exact.requests_of_facts w l h y))
           end.
    reflexivity.
  - rewrite !provider_requests_app.
    repeat match goal with
           | |- context [provider_requests (logging_of ?w ?c)] =>
               rewrite (proj1 (proj2 (Exact.logging_of_facts w c)))
           end.
    cbn [app]. rewrite app_nil_r.
    apply Requests.requests_of_at_most_two.
Qed.

(** X11: clarification can be asked for again and again: on a store of at
    least two turns, [n] callbacks of "I need some help!" in a row all
    return; they add exactly [2 * n] turns, make exactly [2 * n] logger
    calls and at most [2 * n] provider requests, and leave feedback
    pending. *)
Theorem clarification_rounds_compose
        (w : World) (wd : Widgets) (n : nat) (s : Session) :
  2 <= List.length (messages s) ->
  feedback_pending s = true ->
  let out := clarify_rounds w wd n s in
  result_of out = Ok tt /\
  feedback_pending (session_of out) = true /\
  List.length (messages (session_of out)) = List.length (messages s) + 2 * n /\
  List.length (log_calls (events_of out)) = 2 * n /\
  List.length (provider_requests (events_of out)) <= 2 * n.
Proof.
  revert s. induction n as [|n IH]; intros s Hlen Hp; cbv zeta.
  - cbn. repeat split; try lia. exact Hp.
  - destruct (clarify_once w wd s Hlen) as (R & P & L & C & Q).
    destruct (handle_feedback w wd false s) as [[s1 t1] r1] eqn:E.
    unfold result_of, session_of, events_of in R, P, L, C, Q;
      cbn [fst snd] in R, P, L, C, Q. subst r1.
    assert (Hlen1 : 2 <= List.length (messages s1)) by lia.
    destruct (IH s1 Hlen1 P) as (R' & P' & L' & C' & Q').
    destruct (clarify_rounds w wd n s1) as [[s2 t2] r2] eqn:E2.
    unfold result_of, session_of, events_of in R', P', L', C', Q';
      cbn [fst snd] in R', P', L', C', Q'. subst r2.
    cbn [clarify_rounds].
    rewrite (bind_ok _ _ _ _ _ _ _ _ _ E E2).
    unfold result_of, session_of, events_of; cbn [fst snd].
    rewrite log_calls_app, provider_requests_app, !length_app.
    repeat split; try lia. exact P'.
Qed.

Lemma clarification_rounds_compose_witness :
  let out := clarify_rounds answering_world default_widgets 3
                            pending_session in
  result_of out = Ok tt /\
  feedback_pending (session_of out) = true /\
  List.length (messages (session_of out))
  = List.length (messages pending_session) + 2 * 3 /\
  List.length (log_calls (events_of out)) = 2 * 3 /\
  List.length (provider_requests (events_of out)) <= 2 * 3.
Proof.
  apply (clarification_rounds_compose
           answering_world default_widgets 3 pending_session).
  - simpl. lia.
  - reflexivity.
Defined.

(** X12: on a store of at least two turns, "I understand!" asks nothing of
    any provider and writes no turn; "I need some help!" asks
    [get_ai_response] once, for the store extended by the clarification
    request, and what it appends as the assistant's turn is that answer. *)
Theorem feedback_requests
        (w : World) (wd : Widgets) (s : Session) :
  2 <= List.length (messages s) ->
  provider_requests (events_of (handle_feedback w wd true s)) = [] /\
  messages (session_of (handle_feedback w wd true s)) = messages s /\
  provider_requests (events_of (handle_feedback w wd false s))
  = provider_requests
      (requests_of w (selected_label wd) (clarification_history s)
                   (system_instruction_input wd)) /\
  messages (session_of (handle_feedback w wd false s))
  = (clarification_history s
     ++ [ mkMessage "assistant"
            (answer_of w (selected_label wd) (clarification_history s)
                       (system_instruction_input wd)) ])%list.
Proof.
  intros Hlen.
  rewrite !(Exact.handle_feedback_exact _ _ _ _ Hlen).
  unfold session_of, events_of; cbn [fst snd].
  unfold session_after_feedback, feedback_events. cbn [messages].
  rewrite !provider_requests_app.
  repeat match goal with
         | |- context [provider_requests (logging_of ?w ?c)] =>
             rewrite (proj1 (proj2 (Exact.logging_of_facts w c)))
         end.
  cbn [app]. rewrite app_nil_r. repeat split.
Qed.

Lemma feedback_requests_witness :
  provider_requests
    (events_of (handle_feedback answering_world default_widgets true
                                pending_session)) = [] /\
  messages (session_of (handle_feedback answering_world default_widgets true
                                        pending_session))
  = messages pending_session /\
  provider_requests
    (events_of (handle_feedback answering_world default_widgets false
                                pending_session))
  = provider_requests
      (requests_of answering_world (selected_label default_widgets)
                   (clarification_history pending_session)
                   (system_instruction_input default_widgets)) /\
  messages (session_of (handle_feedback answering_world default_widgets false
                                        pending_session))
  = (clarification_history pending_session
     ++ [ mkMessage "assistant"
            (answer_of answering_world (selected_label default_widgets)
                       (clarification_history pending_session)
                       (system_instruction_input default_widgets)) ])%list.
Proof.
  apply (feedback_requests answering_world default_widgets pending_session).
  simpl. lia.
Defined.

End Controller.


(* ================================================================== *)
(** ** The page: login, prompts and reruns *)

Module Shell.

Lemma page_is_outbound_free s :
  log_calls (page s) = [] /\ provider_requests (page s) = [] /\
  db_writes (page s) = [].
Proof. destruct s as [msgs [] [] u]; repeat split. Qed.

Lemma authorized_iff (u_id : string) :
  list_in u_id AUTHORIZED_STUDENT_IDS = true <-> u_id = "Thunder".
Proof.
  unfold list_in, AUTHORIZED_STUDENT_IDS. cbn [existsb].
  rewrite orb_false_r. apply String.eqb_eq.
Qed.

(** X13: from a logged-out session, "Login" logs in exactly when the typed
    id is "Thunder", letter for letter; it then records that id as the
    current user.  Any other id leaves the session as it is and shows
    "Invalid Student ID".  Neither touches the store or the gate. *)
Theorem login_accepts_exactly_the_authorized_id
        (w : World) (wd : Widgets) (u_id : string) (s : Session) :
  authenticated s = false ->
  let out := interaction w wd (ClickLogin u_id) s in
  result_of out = Ok tt /\
  (authenticated (session_of out) = true <-> u_id = "Thunder") /\
  (u_id = "Thunder" ->
   session_of out
   = mkSession (messages s) (feedback_pending s) true (Some "Thunder")) /\
  (u_id <> "Thunder" ->
   session_of out = s /\
   errors_shown (events_of out) = ["Invalid Student ID"]) /\
  log_calls (events_of out) = [] /\ provider_requests (events_of out) = [].
Proof.
  intros A. cbv zeta. rewrite (Exact.interaction_login_exact _ _ _ _ A).
  destruct (list_in u_id AUTHORIZED_STUDENT_IDS) eqn:L.
  - apply authorized_iff in L. subst u_id.
    unfold result_of, session_of, events_of; cbn [fst snd authenticated].
    split; [reflexivity|]. split; [tauto|]. split; [reflexivity|].
    split; [intros H; now elim H|].
    cbn [log_calls provider_requests filter is_primary_call
         is_secondary_call orb].
    fold (provider_requests
            (page (mkSession (messages s) (feedback_pending s) true
                             (Some "Thunder")))).
    now rewrite (proj1 (page_is_outbound_free _)),
                (proj1 (proj2 (page_is_outbound_free _))).
  - assert (Hne : u_id <> "Thunder").
    { intros H. apply authorized_iff in H. congruence. }
    unfold result_of, session_of, events_of; cbn [fst snd].
    split; [reflexivity|]. split; [rewrite A; split; [discriminate|tauto]|].
    split; [tauto|]. split.
    + intros _. split; [reflexivity|].
      unfold page. rewrite A. reflexivity.
    + unfold page. rewrite A. split; reflexivity.
Qed.

Lemma login_accepts_exactly_the_authorized_id_witness :
  let out := interaction answering_world default_widgets
                         (ClickLogin "thunder") initial_session in
  result_of out = Ok tt /\
  (authenticated (session_of out) = true <-> "thunder" = "Thunder") /\
  ("thunder" = "Thunder" ->
   session_of out
   = mkSession (messages initial_session) (feedback_pending initial_session)
               true (Some "Thunder")) /\
  ("thunder" <> "Thunder" ->
   session_of out = initial_session /\
   errors_shown (events_of out) = ["Invalid Student ID"]) /\
  log_calls (events_of out) = [] /\ provider_requests (events_of out) = [].
Proof.
  apply (login_accepts_exactly_the_authorized_id
           answering_world default_widgets "thunder" initial_session).
  reflexivity.
Defined.

(** X14: a logged-out session is inert: whatever is clicked or submitted,
    short of a login with an authorized id, the session stays as it is, no
    provider is asked, nothing is logged or written, and the page shows only
    the request to log in. *)
Theorem logged_out_session_is_inert
        (w : World) (wd : Widgets) (inp : Input) (s : Session) :
  authenticated s = false ->
  (forall u_id, inp = ClickLogin u_id -> u_id <> "Thunder") ->
  let out := interaction w wd inp s in
  result_of out = Ok tt /\
  session_of out = s /\
  provider_requests (events_of out) = [] /\
  log_calls (events_of out) = [] /\
  db_writes (events_of out) = [] /\
  (forall shown, ~ In (EvChatHistory shown) (events_of out)) /\
  In (EvWarning "Please login with an authorized Student ID in the sidebar.")
     (events_of out).
Proof.
  intros A Hlogin. cbv zeta.
  assert (Hpage : page s = [ EvWarning "Please login with an authorized Student ID in the sidebar." ])
    by (unfold page; now rewrite A).
  assert (E : exists pre,
             interaction w wd inp s = (s, (pre ++ page s)%list, Ok tt)
             /\ (pre = [] \/ pre = [EvError "Invalid Student ID"])).
  { destruct inp as [|u_id| | | |];
      try (exists []; split; [|now left];
           apply Exact.interaction_unauthenticated; [exact A | exact I]).
    rewrite (Exact.interaction_login_exact _ _ _ _ A).
    destruct (list_in u_id AUTHORIZED_STUDENT_IDS) eqn:L.
    - apply authorized_iff in L. now elim (Hlogin u_id eq_refl).
    - exists [EvError "Invalid Student ID"]. split; [reflexivity | now right]. }
  destruct E as (pre & -> & Hpre). rewrite Hpage.
  unfold result_of, session_of, events_of; cbn [fst snd].
  destruct Hpre as [-> | ->]; cbn; repeat split;
    try (intros shown [H | [H | []]]; discriminate H);
    try (intros shown [H | []]; discriminate H); tauto.
Qed.

Lemma logged_out_session_is_inert_witness :
  let out := interaction answering_world default_widgets
                         (SubmitPrompt "What is a break-even point?")
                         initial_session in
  result_of out = Ok tt /\
  session_of out = initial_session /\
  provider_requests (events_of out) = [] /\
  log_calls (events_of out) = [] /\
  db_writes (events_of out) = [] /\
  (forall shown, ~ In (EvChatHistory shown) (events_of out)) /\
  In (EvWarning "Please login with an authorized Student ID in the sidebar.")
     (events_of out).
Proof.
  apply (logged_out_session_is_inert
           answering_world default_widgets
           (SubmitPrompt "What is a break-even point?") initial_session).
  - reflexivity.
  - intros u_id H. discriminate H.
Defined.

(** X15: "Logout" discards the conversation: from any logged-in session it
    leaves the initial session, and a login right after it starts with an
    empty store and an open gate. *)
Theorem logout_discards_conversation
        (w : World) (wd : Widgets) (s : Session) :
  authenticated s = true ->
  session_of (interaction w wd ClickLogout s) = initial_session /\
  result_of (interaction w wd ClickLogout s) = Ok tt /\
  session_of (interaction w wd (ClickLogin "Thunder")
                          (session_of (interaction w wd ClickLogout s)))
  = fresh_session "Thunder".
Proof.
  intros A. rewrite (Exact.interaction_logout_exact _ _ _ A).
  unfold session_of, result_of; cbn [fst snd].
  split; [reflexivity|]. split; reflexivity.
Qed.

Lemma logout_discards_conversation_witness :
  session_of (interaction answering_world default_widgets ClickLogout
                          pending_session) = initial_session /\
  result_of (interaction answering_world default_widgets ClickLogout
                         pending_session) = Ok tt /\
  session_of (interaction answering_world default_widgets
                          (ClickLogin "Thunder")
                          (session_of (interaction answering_world
                                                   default_widgets ClickLogout
                                                   pending_session)))
  = fresh_session "Thunder".
Proof.
  apply (logout_discards_conversation
           answering_world default_widgets pending_session).
  reflexivity.
Defined.

Lemma truthy_iff (text : string) : PyStr.truthy text = true <-> text <> "".
Proof. destruct text; simpl; split; congruence. Qed.

Lemma answer_of_is_the_answer w label h sys s :
  result_of (get_ai_response w label h sys s) = Ok (answer_of w label h sys).
Proof. now rewrite Requests.get_ai_response_exact. Qed.

(** X16: a non-empty prompt submitted in a logged-in session with the gate
    open is taken in full: the store grows by the user's turn and by the
    assistant's turn holding the answer of [get_ai_response] to the store
    with the new prompt; the only logger call is the INITIAL_QUERY one, with
    that prompt and that answer; the only provider requests are those of
    that one [get_ai_response]; the gate closes, and the page rendered after
    the rerun has the prompt box disabled and the feedback buttons. *)
Theorem prompt_taken_in_full
        (w : World) (wd : Widgets) (text : string) (s : Session) :
  authenticated s = true ->
  feedback_pending s = false ->
  text <> "" ->
  let out := interaction w wd (SubmitPrompt text) s in
  let history := (messages s ++ [mkMessage "user" text])%list in
  let reply := answer_of w (selected_label wd) history
                         (system_instruction_input wd) in
  result_of (get_ai_response w (selected_label wd) history
                             (system_instruction_input wd) s) = Ok reply /\
  result_of out = Ok tt /\
  session_of out
  = mkSession (history ++ [mkMessage "assistant" reply])%list true true
              (current_user s) /\
  log_calls (events_of out)
  = [ mkLogCall (current_user s) (selected_label wd) text reply
                "INITIAL_QUERY" ] /\
  provider_requests (events_of out)
  = provider_requests (requests_of w (selected_label wd) history
                                   (system_instruction_input wd)) /\
  In (EvChatInput "Please give feedback on the last answer..." true)
     (events_of out) /\
  In EvFeedbackButtons (events_of out).
Proof.
  intros A P T. apply truthy_iff in T. cbv zeta.
  split; [apply answer_of_is_the_answer|].
  rewrite (Exact.interaction_prompt_taken _ _ _ _ A P T).
  unfold result_of, session_of, events_of; cbn [fst snd].
  unfold session_after_prompt, prompt_events. rewrite A.
  split; [reflexivity|]. split; [reflexivity|].
  rewrite !log_calls_app, !Controller.provider_requests_app.
  rewrite !(proj1 (page_is_outbound_free _)),
          !(proj1 (proj2 (page_is_outbound_free _))).
  rewrite (proj1 (Exact.logging_of_facts _ _)),
          (proj1 (proj2 (Exact.logging_of_facts _ _))),
          (proj1 (Exact.requests_of_facts _ _ _ _)).
  cbn [app]. rewrite !app_nil_r.
  split; [reflexivity|]. split; [reflexivity|].
  split; apply in_or_app; right; apply in_or_app; right;
    unfold page; cbn; tauto.
Qed.

Lemma prompt_taken_in_full_witness :
  let w := answering_world in
  let wd := default_widgets in
  let text := "What is a break-even point?" in
  let s := fresh_session "Thunder" in
  let out := interaction w wd (SubmitPrompt text) s in
  let history := (messages s ++ [mkMessage "user" text])%list in
  let reply := answer_of w (selected_label wd) history
                         (system_instruction_input wd) in
  result_of (get_ai_response w (selected_label wd) history
                             (system_instruction_input wd) s) = Ok reply /\
  result_of out = Ok tt /\
  session_of out
  = mkSession (history ++ [mkMessage "assistant" reply])%list true true
              (current_user s) /\
  log_calls (events_of out)
  = [ mkLogCall (current_user s) (selected_label wd) text reply
                "INITIAL_QUERY" ] /\
  provider_requests (events_of out)
  = provider_requests (requests_of w (selected_label wd) history
                                   (system_instruction_input wd)) /\
  In (EvChatInput "Please give feedback on the last answer..." true)
     (events_of out) /\
  In EvFeedbackButtons (events_of out).
Proof.
  apply (prompt_taken_in_full
           answering_world default_widgets "What is a break-even point?"
           (fresh_session "Thunder")).
  - reflexivity.
  - reflexivity.
  - discriminate.
Defined.

(** X17: a prompt submission changes the store exactly when the session is
    logged in, no feedback is pending and the text is not empty; in every
    other case the whole session stays as it is and nothing goes out. *)
Theorem prompt_changes_store_iff
        (w : World) (wd : Widgets) (text : string) (s : Session) :
  let out := interaction w wd (SubmitPrompt text) s in
  (messages (session_of out) <> messages s <->
   authenticated s = true /\ feedback_pending s = false /\ text <> "") /\
  (messages (session_of out) = messages s ->
   session_of out = s /\
   provider_requests (events_of out) = [] /\ log_calls (events_of out) = []).
Proof.
  cbv zeta.
  destruct (authenticated s) eqn:A;
    [destruct (feedback_pending s) eqn:P;
     [|destruct (PyStr.truthy text) eqn:T]|].
  4: rewrite (Exact.interaction_prompt_ignored w wd text s (or_introl A)).
  1: rewrite (Exact.interaction_prompt_ignored
                w wd text s (or_intror (or_introl P))).
  3: rewrite (Exact.interaction_prompt_ignored
                w wd text s (or_intror (or_intror T))).
  1,3,4: unfold session_of, events_of; cbn [fst snd];
    destruct (page_is_outbound_free s) as (L & R & _); rewrite L, R;
    (split; [split; [intros H; now elim H | intros (H1 & H2 & H3)]
            | intros _; repeat split]);
    try discriminate.
  - apply truthy_iff in H3. congruence.
  - rewrite (Exact.interaction_prompt_taken _ _ _ _ A P T).
    unfold session_of, events_of; cbn [fst snd].
    unfold session_after_prompt. cbn [messages].
    assert (Hne : ((messages s ++ [mkMessage "user" text])
                   ++ [mkMessage "assistant"
                         (answer_of w (selected_label wd)
                            (messages s ++ [mkMessage "user" text])
                            (system_instruction_input wd))])%list
                  <> messages s).
    { intros H. apply (f_equal (@List.length Message)) in H.
      rewrite !length_app in H. simpl in H. lia. }
    split.
    + split; [intros _|intros _; exact Hne].
      repeat split. now apply truthy_iff.
    + intros H. now elim Hne.
Qed.


(** X23: the label the page passes on is always a key of [MODEL_MAPPING],
    whatever the developer settings: with them off it is
    "gemini-3-pro-preview" with the instruction "Business Planning
    Assistant", with them on it is one of the select box options.  So the
    [KeyError] of line 89 cannot occur from the page, and Gemini is called
    whenever its client can be built. *)
Theorem selected_label_is_a_mapping_key
        (w : World) (wd : Widgets) (h : list Message) (s : Session) :
  In (selected_label wd) (map fst MODEL_MAPPING) /\
  (exists id, dict_get MODEL_MAPPING (selected_label wd) = Some id) /\
  (dev_mode wd = false ->
   selected_label wd = "gemini-3-pro-preview" /\
   system_instruction_input wd = "Business Planning Assistant") /\
  (dev_mode wd = true -> system_instruction_input wd = system_message wd) /\
  primary_calls (events_of (get_ai_response w (selected_label wd) h
                                            (system_instruction_input wd) s))
  = match genai_client w with inl _ => 1 | inr _ => 0 end.
Proof.
  assert (K : exists id, dict_get MODEL_MAPPING (selected_label wd) = Some id).
  { unfold selected_label. destruct (dev_mode wd); [|eexists; reflexivity].
    destruct (model_choice wd) as [|[|[|n]]]; eexists; reflexivity. }
  split; [|split; [exact K|split; [|split]]].
  - unfold selected_label. destruct (dev_mode wd); [|simpl; tauto].
    destruct (model_choice wd) as [|[|[|n]]]; simpl; tauto.
  - unfold selected_label, system_instruction_input. intros ->. now split.
  - unfold system_instruction_input. intros ->. reflexivity.
  - rewrite Requests.primary_calls_of_get_ai_response.
    destruct K as [id ->]. reflexivity.
Qed.

(** X24: a whole conversation, whatever the providers answer: after login
    and a first non-empty prompt the store holds two turns and feedback is
    pending; "I need some help!" brings it to four turns, feedback still
    pending, the last turn being the answer to the clarification request;
    "I understand!" then opens the gate and leaves the four turns, a user
    turn and an assistant turn twice. *)
Theorem conversation_with_one_clarification
        (w : World) (wd : Widgets) (text : string) :
  text <> "" ->
  let s1 := session_of (interaction w wd (ClickLogin "Thunder")
                                    initial_session) in
  let s2 := session_of (interaction w wd (SubmitPrompt text) s1) in
  let s3 := session_of (interaction w wd (ClickFeedback false) s2) in
  let s4 := session_of (interaction w wd (ClickFeedback true) s3) in
  s1 = fresh_session "Thunder" /\
  List.length (messages s2) = 2 /\ feedback_pending s2 = true /\
  List.length (messages s3) = 4 /\ feedback_pending s3 = true /\
  List.last (messages s3) (mkMessage "" "")
  = mkMessage "assistant"
              (answer_of w (selected_label wd) (clarification_history s2)
                         (system_instruction_input wd)) /\
  messages s4 = messages s3 /\ feedback_pending s4 = false /\
  map role (messages s4) = ["user"; "assistant"; "user"; "assistant"].
Proof.
  intros T. apply truthy_iff in T.
  set (f1 := fresh_session "Thunder").
  assert (E1 : session_of (interaction w wd (ClickLogin "Thunder")
                                       initial_session) = f1).
  { now rewrite (Exact.interaction_login_exact
                   w wd "Thunder" initial_session eq_refl). }
  set (s2 := session_after_prompt w wd text f1).
  assert (E2 : session_of (interaction w wd (SubmitPrompt text) f1) = s2).
  { now rewrite (Exact.interaction_prompt_taken
                   w wd text f1 eq_refl eq_refl T). }
  assert (L2 : 2 <= List.length (messages s2)) by (cbn; lia).
  set (s3 := session_after_feedback w wd false s2).
  assert (E3 : session_of (interaction w wd (ClickFeedback false) s2) = s3).
  { now rewrite (Exact.interaction_feedback_exact
                   w wd false s2 eq_refl eq_refl L2). }
  assert (L3 : 2 <= List.length (messages s3)).
  { unfold s3, session_after_feedback, clarification_history.
    cbn [messages]. rewrite !length_app. simpl. lia. }
  assert (E4 : session_of (interaction w wd (ClickFeedback true) s3)
               = session_after_feedback w wd true s3).
  { now rewrite (Exact.interaction_feedback_exact
                   w wd true s3 eq_refl eq_refl L3). }
  cbv zeta. rewrite E1, E2, E3, E4.
  split; [reflexivity|]. split; [reflexivity|]. split; [reflexivity|].
  split; [reflexivity|]. split; [reflexivity|].
  split; [|split; [reflexivity|split; reflexivity]].
  unfold s3, session_after_feedback. cbn [messages]. apply last_last.
Qed.

Lemma conversation_with_one_clarification_witness :
  let w := answering_world in
  let wd := default_widgets in
  let s1 := session_of (interaction w wd (ClickLogin "Thunder")
                                    initial_session) in
  let s2 := session_of (interaction w wd
                          (SubmitPrompt "What is a break-even point?") s1) in
  let s3 := session_of (interaction w wd (ClickFeedback false) s2) in
  let s4 := session_of (interaction w wd (ClickFeedback true) s3) in
  s1 = fresh_session "Thunder" /\
  List.length (messages s2) = 2 /\ feedback_pending s2 = true /\
  List.length (messages s3) = 4 /\ feedback_pending s3 = true /\
  List.last (messages s3) (mkMessage "" "")
  = mkMessage "assistant"
              (answer_of w (selected_label wd) (clarification_history s2)
                         (system_instruction_input wd)) /\
  messages s4 = messages s3 /\ feedback_pending s4 = false /\
  map role (messages s4) = ["user"; "assistant"; "user"; "assistant"].
Proof.
  apply (conversation_with_one_clarification
           answering_world default_widgets "What is a break-even point?").
  discriminate.
Defined.

End Shell.


(* ================================================================== *)
(** ** Invariants of the session *)

Module Invariants.

Lemma pair_induction {A} (P : list A -> Prop) :
  P [] -> (forall x, P [x]) -> (forall x y l, P l -> P (x :: y :: l)) ->
  forall l, P l.
Proof.
  intros H0 H1 H2 l.
  enough (H : P l /\ forall x, P (x :: l)) by apply H.
  induction l as [|y l [IH1 IH2]]; split; auto.
Qed.

Lemma alternating_app_pair (h : list Message) (q a : string) :
  alternating h ->
  alternating (h ++ [mkMessage "user" q; mkMessage "assistant" a])%list.
Proof.
  induction h as [|x|x y l IH] using pair_induction; cbn.
  - auto.
  - intros [].
  - intros (Hx & Hy & Hl). auto.
Qed.

Lemma alternating_even (h : list Message) :
  alternating h -> Nat.even (List.length h) = true.
Proof.
  induction h as [|x|x y l IH] using pair_induction; cbn.
  - reflexivity.
  - intros [].
  - intros (_ & _ & Hl). auto.
Qed.

Lemma alternating_last_two (front : list Message) (a b : Message) :
  alternating (front ++ [a; b])%list ->
  role a = "user" /\ role b = "assistant".
Proof.
  induction front as [|x|x y l IH] using pair_induction; cbn.
  - tauto.
  - intros (_ & _ & []).
  - intros (_ & _ & Hl). auto.
Qed.

Lemma alternating_two_turns (h : list Message) :
  alternating h -> h <> [] -> 2 <= List.length h.
Proof.
  destruct h as [|x [|y l]]; cbn; [congruence | intros [] | intros; lia].
Qed.

Lemma session_effect_invariant s inp s' :
  session_effect s inp s' -> session_invariant s -> session_invariant s'.
Proof.
  intros Heff (Hout & Hin & Halt & Hpend).
  destruct Heff as [inp | u_id A L | A | A | text reply A P T | A P Hlen
                    | request reply A P Hlen].
  - repeat split; assumption.
  - apply Shell.authorized_iff in L. subst u_id.
    rewrite (Hout A). repeat split; try discriminate; auto.
  - repeat split; try discriminate; auto.
  - repeat split; cbn; try discriminate; auto.
  - repeat split; cbn; try discriminate; auto.
    + now apply alternating_app_pair.
    + intros _ H. now destruct (messages s).
  - repeat split; cbn; try discriminate; auto.
  - repeat split; cbn; try discriminate; auto.
    + now apply alternating_app_pair.
    + intros _ H. now destruct (messages s).
Qed.

Lemma reachable_invariant s : reachable s -> session_invariant s.
Proof.
  induction 1 as [|s w wd inp Hs IH].
  - repeat split; try discriminate; auto.
  - eapply session_effect_invariant;
      [apply Script.session_effect_of_interaction | exact IH].
Qed.

(** X19: in every reachable session state the store is a sequence of
    exchanges, a user turn followed by an assistant turn: its length is
    even, and whenever it ends with two turns [a; b] (what line 137 reads as
    the last prompt and line 138 as the last reply), [a] is a user turn and
    [b] an assistant turn. *)
Theorem reachable_store_alternates (s : Session) :
  reachable s ->
  alternating (messages s) /\
  Nat.even (List.length (messages s)) = true /\
  (forall front a b,
      messages s = (front ++ [a; b])%list ->
      role a = "user" /\ role b = "assistant").
Proof.
  intros Hs. destruct (reachable_invariant s Hs) as (_ & _ & Halt & _).
  split; [exact Halt|]. split; [now apply alternating_even|].
  intros front a b Hm. rewrite Hm in Halt.
  now apply (alternating_last_two front).
Qed.

Lemma reachable_store_alternates_witness :
  alternating (messages after_first_exchange) /\
  Nat.even (List.length (messages after_first_exchange)) = true /\
  (forall front a b,
      messages after_first_exchange = (front ++ [a; b])%list ->
      role a = "user" /\ role b = "assistant").
Proof.
  apply (reachable_store_alternates after_first_exchange).
  do 2 apply reachable_interaction. apply reachable_initial.
Defined.

(** X20: in every reachable session state, a logged-out session is the
    initial one (empty store, gate open, no user), a logged-in session has
    "Thunder" as current user, and pending feedback means a logged-in
    session whose store holds at least the exchange being judged. *)
Theorem reachable_session_shape (s : Session) :
  reachable s ->
  (authenticated s = false -> s = initial_session) /\
  (authenticated s = true -> current_user s = Some "Thunder") /\
  (feedback_pending s = true ->
   authenticated s = true /\ 2 <= List.length (messages s)).
Proof.
  intros Hs. destruct (reachable_invariant s Hs) as (Hout & Hin & Halt & Hp).
  split; [exact Hout|]. split; [exact Hin|].
  intros P. split.
  - destruct (authenticated s) eqn:A; [reflexivity|].
    rewrite (Hout eq_refl) in P. discriminate P.
  - apply alternating_two_turns; auto.
Qed.

Lemma reachable_session_shape_witness :
  (authenticated after_first_exchange = false ->
   after_first_exchange = initial_session) /\
  (authenticated after_first_exchange = true ->
   current_user after_first_exchange = Some "Thunder") /\
  (feedback_pending after_first_exchange = true ->
   authenticated after_first_exchange = true /\
   2 <= List.length (messages after_first_exchange)).
Proof.
  apply (reachable_session_shape after_first_exchange).
  do 2 apply reachable_interaction. apply reachable_initial.
Defined.

(** Every user action, by cases. *)
Lemma interaction_cases w wd inp s :
  (feedback_pending s = true -> 2 <= List.length (messages s)) ->
  exists s' pre out,
    interaction w wd inp s = (s', (pre ++ out ++ page s')%list, Ok tt) /\
    log_calls pre = [] /\ db_writes pre = [] /\
    (out = [] \/
     authenticated s = true /\
     (out = prompt_events w wd match inp with
                                | SubmitPrompt text => text
                                | _ => ""
                                end s
      \/ out = feedback_events w wd match inp with
                                    | ClickFeedback u => u
                                    | _ => true
                                    end s)).
Proof.
  intros Hp.
  assert (Idle : interaction w wd inp s = (s, page s, Ok tt) ->
                 exists s' pre out,
                   interaction w wd inp s
                   = (s', (pre ++ out ++ page s')%list, Ok tt) /\
                   log_calls pre = [] /\ db_writes pre = [] /\
                   (out = [] \/
                    authenticated s = true /\
                    (out = prompt_events w wd match inp with
                                               | SubmitPrompt text => text
                                               | _ => ""
                                               end s
                     \/ out = feedback_events w wd match inp with
                                                   | ClickFeedback u => u
                                                   | _ => true
                                                   end s))).
  { intros E. exists s, [], []. rewrite E. repeat split. now left. }
  destruct (authenticated s) eqn:A.
  - destruct inp as [|u_id| | |text|understood].
    + apply Idle, Exact.interaction_no_input_exact.
    + apply Idle, Exact.interaction_login_when_authenticated, A.
    + exists initial_session, [], [].
      rewrite (Exact.interaction_logout_exact _ _ _ A).
      repeat split. now left.
    + exists (mkSession [] false true (current_user s)), [], [].
      rewrite (Exact.interaction_clear_exact _ _ _ A).
      repeat split. now left.
    + destruct (feedback_pending s) eqn:P;
        [|destruct (PyStr.truthy text) eqn:T].
      * apply Idle, Exact.interaction_prompt_ignored. tauto.
      * exists (session_after_prompt w wd text s), (page s),
          (prompt_events w wd text s).
        rewrite (Exact.interaction_prompt_taken _ _ _ _ A P T).
        destruct (Shell.page_is_outbound_free s) as (L & _ & D).
        repeat split; auto.
      * apply Idle, Exact.interaction_prompt_ignored. tauto.
    + destruct (feedback_pending s) eqn:P.
      * exists (session_after_feedback w wd understood s), [],
          (feedback_events w wd understood s).
        rewrite (Exact.interaction_feedback_exact _ _ _ _ A P (Hp eq_refl)).
        repeat split; auto.
      * apply Idle, Exact.interaction_feedback_ignored.
        rewrite A, P. reflexivity.
  - destruct inp as [|u_id| | |text|understood];
      try (apply Idle, Exact.interaction_unauthenticated; [exact A | exact I]).
    rewrite (Exact.interaction_login_exact _ _ _ _ A).
    destruct (list_in u_id AUTHORIZED_STUDENT_IDS).
    + exists (mkSession (messages s) (feedback_pending s) true (Some u_id)),
        [EvSuccess "Welcome!"], []. repeat split. now left.
    + exists s, [EvError "Invalid Student ID"], []. repeat split. now left.
Qed.

(** X21: from a reachable session state no user action ends in an
    exception: every run of the script, and the rerun it may ask for,
    completes.  In particular the [IndexError] of [handle_feedback] cannot
    occur. *)
Theorem reachable_actions_complete
        (w : World) (wd : Widgets) (inp : Input) (s : Session) :
  reachable s ->
  result_of (interaction w wd inp s) = Ok tt.
Proof.
  intros Hs.
  destruct (interaction_cases w wd inp s
              (Script.reachable_pending_two_turns s Hs))
    as (s' & pre & out & E & _).
  now rewrite E.
Qed.

Lemma reachable_actions_complete_witness :
  result_of (interaction answering_world default_widgets (ClickFeedback false)
                         after_first_exchange) = Ok tt.
Proof.
  apply (reachable_actions_complete
           answering_world default_widgets (ClickFeedback false)
           after_first_exchange).
  do 2 apply reachable_interaction. apply reachable_initial.
Defined.











End Invariants.

(* ================================================================== *)
(** ** Firebase connection *)

Module ConnectionFacts.
Import Connection.

Example unescape_newlines_sample :
  unescape_newlines "KEY\nline\\n" = String "K" (String "E" (String "Y"
    (String newline (String "l" (String "i" (String "n" (String "e"
    (String backslash (String newline ""))))))))).
Proof. reflexivity. Qed.

Example strip_sample :
  strip (String newline " https://x.firebaseio.com/ ")
  = "https://x.firebaseio.com/".
Proof. reflexivity. Qed.

(** *** [replace] *)








(** *** [strip] *)











(** *** Item assignment on a dict *)




(** *** The connection *)

Lemma initialize_outcome env :
  match secret_service_account env with
  | inr d => initialize env = ([], inr d)
  | inl cred0 =>
      match dict_get cred0 "private_key" with
      | None => initialize env = ([], inr (missing_key_text env "private_key"))
      | Some key0 =>
          match secret_db_url env with
          | inr d => initialize env = ([], inr d)
          | inl url0 =>
              let cred :=
                dict_set cred0 "private_key" (unescape_newlines key0) in
              match certificate env cred with
              | inr d => initialize env = ([SeCertificate cred], inr d)
              | inl _ =>
                  initialize env
                  = ([SeCertificate cred; SeInitializeApp cred (strip url0)],
                     initialize_app env cred (strip url0))
              end
          end
      end
  end.
Proof.
  unfold initialize.
  destruct (secret_service_account env) as [cred0|d]; [|reflexivity].
  cbn [setup_bind app].
  destruct (dict_get cred0 "private_key") as [key0|]; [|reflexivity].
  cbn [setup_bind app].
  destruct (secret_db_url env) as [url0|d]; [|reflexivity].
  cbn [setup_bind app setup_call].
  destruct (certificate env _) as [[]|d]; [|reflexivity].
  destruct (initialize_app env _ _); reflexivity.
Qed.

Lemma connection_when_initialized env :
  apps_initialized env = true ->
  get_firebase_connection env
  = match reference env "/" with
    | inl _ => ([SeReference "/"], Some (MkReference "/"))
    | inr d => ([SeReference "/"; SeError ("Firebase Init Error: " ++ d)], None)
    end.
Proof.
  intros A. unfold get_firebase_connection, connection_attempt. rewrite A.
  cbn [setup_ret setup_bind setup_call app].
  destruct (reference env "/") as [[]|d]; reflexivity.
Qed.

Lemma connection_after_initialize env tr :
  apps_initialized env = false ->
  initialize env = (tr, inl tt) ->
  get_firebase_connection env
  = match reference env "/" with
    | inl _ => ((tr ++ [SeReference "/"])%list, Some (MkReference "/"))
    | inr d =>
        ((tr ++ [SeReference "/"; SeError ("Firebase Init Error: " ++ d)])%list,
         None)
    end.
Proof.
  intros A E. unfold get_firebase_connection, connection_attempt.
  rewrite A, E. cbn [setup_ret setup_bind setup_call app].
  destruct (reference env "/") as [[]|d]; cbn [app];
    rewrite ?app_nil_r, <- ?app_assoc; reflexivity.
Qed.

Lemma connection_after_failure env tr d :
  apps_initialized env = false ->
  initialize env = (tr, inr d) ->
  get_firebase_connection env
  = ((tr ++ [SeError ("Firebase Init Error: " ++ d)])%list, None).
Proof.
  intros A E. unfold get_firebase_connection, connection_attempt.
  rewrite A, E. reflexivity.
Qed.

(** X25: when a Firebase app already exists, the function reads no secret,
    builds no certificate and initialises nothing: it only asks for the
    root reference, and returns it, or shows the error and returns
    [None]. *)
Theorem existing_app_is_reused (env : FirebaseEnv) :
  apps_initialized env = true ->
  get_firebase_connection env
  = match reference env "/" with
    | inl _ => ([SeReference "/"], Some (MkReference "/"))
    | inr d => ([SeReference "/"; SeError ("Firebase Init Error: " ++ d)], None)
    end /\
  initializations (fst (get_firebase_connection env)) = [].
Proof.
  intros A. rewrite (connection_when_initialized env A).
  split; [reflexivity|]. destruct (reference env "/"); reflexivity.
Qed.

Lemma existing_app_is_reused_witness :
  let env := mkFirebaseEnv true (inr "no secrets file") (inr "no secrets file")
                           (fun key => key) (fun _ => inr "unused")
                           (fun _ _ => inr "unused") (fun _ => inl tt) in
  get_firebase_connection env
  = match reference env "/" with
    | inl _ => ([SeReference "/"], Some (MkReference "/"))
    | inr d => ([SeReference "/"; SeError ("Firebase Init Error: " ++ d)], None)
    end /\
  initializations (fst (get_firebase_connection env)) = [].
Proof.
  apply (existing_app_is_reused
           (mkFirebaseEnv true (inr "no secrets file") (inr "no secrets file")
                          (fun key => key) (fun _ => inr "unused")
                          (fun _ _ => inr "unused") (fun _ => inl tt))).
  reflexivity.
Defined.

Lemma initializations_app t1 t2 :
  initializations (t1 ++ t2)%list
  = (initializations t1 ++ initializations t2)%list.
Proof.
  induction t1 as [|e t1 IH]; [reflexivity|].
  destruct e; cbn; rewrite IH; reflexivity.
Qed.



Lemma initialize_events env :
  forall e, In e (fst (initialize env)) ->
            match e with
            | SeCertificate _ | SeInitializeApp _ _ => True
            | _ => False
            end.
Proof.
  pose proof (initialize_outcome env) as O.
  destruct (secret_service_account env) as [cred0|d]; [|rewrite O; intros e []].
  destruct (dict_get cred0 "private_key") as [key0|];
    [|rewrite O; intros e []].
  destruct (secret_db_url env) as [url0|d]; [|rewrite O; intros e []].
  cbv zeta in O.
  destruct (certificate env _) as [[]|d]; rewrite O; cbn.
  - intros e [<- | [<- | []]]; exact I.
  - intros e [<- | []]; exact I.
Qed.



(** X28: the function returns the root reference or [None], never
    anything else: with a reference no error has been shown and the last
    thing done was to ask for "/"; with [None] the last thing done was to
    show exactly one "Firebase Init Error: ..." message. *)
Theorem connection_is_root_reference_or_shown_error (env : FirebaseEnv) :
  match snd (get_firebase_connection env) with
  | Some ref =>
      ref = MkReference "/" /\
      (forall text, ~ In (SeError text) (fst (get_firebase_connection env))) /\
      List.last (fst (get_firebase_connection env)) (SeError "")
      = SeReference "/"
  | None =>
      exists d before,
        fst (get_firebase_connection env)
        = (before ++ [SeError ("Firebase Init Error: " ++ d)])%list /\
        (forall text, ~ In (SeError text) before)
  end.
Proof.
  assert (Init : forall text, ~ In (SeError text) (fst (initialize env))).
  { intros text H. exact (initialize_events env _ H). }
  destruct (apps_initialized env) eqn:A.
  - rewrite (connection_when_initialized env A).
    destruct (reference env "/") as [[]|d]; cbn [fst snd].
    + split; [reflexivity|]. split; [|reflexivity].
      intros text [H | []]. discriminate H.
    + exists d, [SeReference "/"]. split; [reflexivity|].
      intros text [H | []]. discriminate H.
  - destruct (initialize env) as [tr [[]|d]] eqn:E; cbn [fst] in Init.
    + rewrite (connection_after_initialize env tr A E).
      destruct (reference env "/") as [[]|d]; cbn [fst snd].
      * split; [reflexivity|]. split; [|apply last_last].
        intros text H. apply in_app_or in H.
        destruct H as [H | [H | []]]; [exact (Init text H) | discriminate H].
      * exists d, (tr ++ [SeReference "/"])%list.
        split; [now rewrite <- app_assoc|].
        intros text H. apply in_app_or in H.
        destruct H as [H | [H | []]]; [exact (Init text H) | discriminate H].
    + rewrite (connection_after_failure env tr d A E). cbn [fst snd].
      exists d, tr. split; [reflexivity | exact Init].
Qed.

End ConnectionFacts.


(* ================================================================== *)
(** ** The session as a state machine *)

Module Machine.

(** The session and the result of any user action, from any session. *)
Lemma interaction_session_and_result w wd inp s :
  session_of (interaction w wd inp s)
  = next_session (fun h => answer_of w (selected_label wd) h
                                     (system_instruction_input wd))
                 inp s /\
  result_of (interaction w wd inp s)
  = match inp with
    | ClickFeedback _ =>
        if authenticated s && feedback_pending s
           && (List.length (messages s) <? 2)%nat
        then Raise (PyException (index_error_text w))
        else Ok tt
    | _ => Ok tt
    end.
Proof.
  destruct inp as [|u_id| | |text|understood]; cbn [next_session].
  - now rewrite Exact.interaction_no_input_exact.
  - destruct (authenticated s) eqn:A; cbn [negb andb].
    + now rewrite (Exact.interaction_login_when_authenticated _ _ _ _ A).
    + rewrite (Exact.interaction_login_exact _ _ _ _ A).
      now destruct (list_in u_id AUTHORIZED_STUDENT_IDS).
  - destruct (authenticated s) eqn:A.
    + now rewrite (Exact.interaction_logout_exact _ _ _ A).
    + now rewrite (Exact.interaction_unauthenticated _ _ ClickLogout _ A I).
  - destruct (authenticated s) eqn:A.
    + now rewrite (Exact.interaction_clear_exact _ _ _ A).
    + now rewrite (Exact.interaction_unauthenticated _ _ ClickClearChat _ A I).
  - destruct (authenticated s) eqn:A; cbn [andb];
      [destruct (feedback_pending s) eqn:P; cbn [andb negb];
       [|destruct (PyStr.truthy text) eqn:T]|].
    + now rewrite (Exact.interaction_prompt_ignored
                     w wd text s (or_intror (or_introl P))).
    + rewrite (Exact.interaction_prompt_taken _ _ _ _ A P T).
      unfold session_of, session_after_prompt; cbn [fst]. now rewrite A.
    + now rewrite (Exact.interaction_prompt_ignored
                     w wd text s (or_intror (or_intror T))).
    + now rewrite (Exact.interaction_prompt_ignored w wd text s (or_introl A)).
  - destruct (authenticated s) eqn:A; cbn [andb];
      [destruct (feedback_pending s) eqn:P; cbn [andb]|].
    + destruct (Nat.leb_spec 2 (List.length (messages s))) as [Long | Short].
      * rewrite (Exact.interaction_feedback_exact _ _ _ _ A P Long).
        unfold session_of, result_of, session_after_feedback; cbn [fst snd].
        rewrite A. apply Nat.ltb_ge in Long. rewrite Long.
        now destruct understood.
      * rewrite (Exact.interaction_feedback_short _ _ _ _ A P Short).
        apply Nat.ltb_lt in Short. now rewrite Short.
    + rewrite (Exact.interaction_feedback_ignored w wd understood s);
        [now split | now rewrite A, P].
    + rewrite (Exact.interaction_feedback_ignored w wd understood s);
        [now split | now rewrite A].
Qed.

(** X29: the session after any user action, from any session state, is
    the one the state machine [next_session] gives, with
    [get_ai_response] as its answer function; a feedback click on a store of
    fewer than two turns, which ends in an [IndexError], leaves the session
    as it was. *)
Theorem interaction_follows_next_session
        (w : World) (wd : Widgets) (inp : Input) (s : Session) :
  session_of (interaction w wd inp s)
  = next_session (fun h => answer_of w (selected_label wd) h
                                     (system_instruction_input wd))
                 inp s.
Proof.
  destruct (interaction_session_and_result w wd inp s) as [Hsession _].
  exact Hsession.
Qed.

Lemma answer_of_same_providers w w' label h sys :
  same_providers w w' ->
  answer_of w label h sys = answer_of w' label h sys.
Proof.
  intros (Hc & Hg & Ho & Hch & Hk & Hi).
  unfold answer_of, get_ai_response, gemini_attempt, openai_attempt;
    unfold_script.
  rewrite Hc, Ho, Hi, (Hk label).
  generalize (dict_get MODEL_MAPPING label); intros lookup.
  destruct (genai_client w') as [key|d]; [destruct lookup as [id|]|].
  1: rewrite Hg;
    destruct (generate_content w' key id (api_contents h) sys) as [t|d];
    [reflexivity|].
  all: match goal with |- context [is_unavailable ?x] =>
         destruct (is_unavailable x) end; try reflexivity.
  all: destruct (openai_client w') as [key2|d2]; try reflexivity.
  all: rewrite Hch;
    destruct (chat_completions_create w' key2 "gpt-5.2" (oa_messages sys h))
      as [[|c cs]|d3]; reflexivity.
Qed.

(** X30: logging never changes the conversation: two worlds whose
    providers behave alike take the session to the same state and the action
    to the same result, whether [db_ref] is there or not and whether the
    database accepts or rejects the writes. *)
Theorem logging_does_not_change_the_conversation
        (w w' : World) (wd : Widgets) (inp : Input) (s : Session) :
  same_providers w w' ->
  session_of (interaction w wd inp s) = session_of (interaction w' wd inp s)
  /\
  result_of (interaction w wd inp s) = result_of (interaction w' wd inp s).
Proof.
  intros Hsame.
  destruct (interaction_session_and_result w wd inp s) as [-> ->].
  destruct (interaction_session_and_result w' wd inp s) as [-> ->].
  assert (Hi : index_error_text w = index_error_text w') by apply Hsame.
  rewrite Hi. split; [|reflexivity].
  destruct inp; cbn [next_session];
    rewrite ?(answer_of_same_providers w w' _ _ _ Hsame); reflexivity.
Qed.

Lemma logging_does_not_change_the_conversation_witness :
  session_of (interaction answering_world default_widgets
                          (ClickFeedback false) pending_session)
  = session_of (interaction world_with_failing_database default_widgets
                            (ClickFeedback false) pending_session)
  /\
  result_of (interaction answering_world default_widgets
                         (ClickFeedback false) pending_session)
  = result_of (interaction world_with_failing_database default_widgets
                           (ClickFeedback false) pending_session).
Proof.
  apply (logging_does_not_change_the_conversation
           answering_world world_with_failing_database default_widgets
           (ClickFeedback false) pending_session).
  repeat split.
Defined.

End Machine.
